(** * Order placement, payment initiation and order status: a shallow embedding

    The development follows the two action modules of the storefront:

    - [Part001]   : src/unnamed/part_001 (placeOrder with discounts and the
                    COD / prepaid branch, initiatePhonePePayment,
                    checkPhonePeStatus, changeOrderStatusAction, submitReview);
    - [LibActions]: src/src/lib/actions.ts (the COD-only placeOrder,
                    processPrepaidOrder, changeOrderStatus, submitReview).

    Async server actions become computations in a reader/state/exception
    monad [M]: the reader is the outside world of one call ([Env]: process
    environment, clock, pricing, gateway answers, store outages), the state is
    the document database together with the requests and logs emitted so far
    ([World]), and an exception is a thrown [Error], identified with its
    message.  A throw keeps every write made before it, as in JavaScript. *)

From Stdlib Require Import ZArith Uint63 PrimFloat FloatOps SpecFloat.
From stdpp Require Import base gmap strings list pretty.

Local Open Scope Z_scope.

(** ** JavaScript values used by the actions *)

Module JS.

(** Truthiness of a string: only the empty string is falsy. *)
Definition truthy (s : string) : bool := negb (String.eqb s "").

(** Truthiness of [string | undefined]. *)
Definition truthy_opt (o : option string) : bool :=
  match o with
  | Some s => truthy s
  | None => false
  end.

(** [a || d] on [string | undefined] with a string default. *)
Definition or_else (o : option string) (d : string) : string :=
  match o with
  | Some s => if truthy s then s else d
  | None => d
  end.

(** An integer as a binary64 number (exact below 2^53). *)
Definition Number_of_Z (z : Z) : float :=
  if z <? 0 then PrimFloat.opp (PrimFloat.of_uint63 (Uint63.of_Z (- z)))
  else PrimFloat.of_uint63 (Uint63.of_Z z).

(** [Math.round]: the nearest integer, ties towards +infinity, computed
    exactly on the dyadic value [±m·2^e] of a finite double.  NaN and the
    infinities, which no product of in-range integers yields, map to 0. *)
Definition Math_round (x : float) : Z :=
  match Prim2SF x with
  | S754_finite s m e =>
      let n := if s then Z.neg m else Z.pos m in
      if 0 <=? e then n * 2 ^ e
      else (2 * n + 2 ^ (- e)) / 2 ^ (- e + 1)
  | _ => 0
  end.

(** [`${n}`] for an integer-valued number. *)
Definition String_of_Z (z : Z) : string := pretty z.

(** [`${n}`] for the result of [parseInt], [None] standing for NaN. *)
Definition String_of_number (n : option Z) : string :=
  match n with
  | Some z => String_of_Z z
  | None => "NaN"
  end.

(** JSON values, as far as the gateway payloads need them; [JUndefined]
    marks a property whose value is [undefined]. *)
#[warnings="-register-all"]
Inductive Json :=
| JStr (s : string)
| JNum (z : Z)
| JUndefined
| JObj (fields : list (string * Json)).

Definition JStr_opt (o : option string) : Json :=
  match o with
  | Some s => JStr s
  | None => JUndefined
  end.

(** Property access on an object literal. *)
Fixpoint field_of (k : string) (fields : list (string * Json)) : option Json :=
  match fields with
  | [] => None
  | (k', v) :: rest => if String.eqb k k' then Some v else field_of k rest
  end.

Definition get (k : string) (j : Json) : option Json :=
  match j with
  | JObj fields => field_of k fields
  | _ => None
  end.

End JS.

(** Library functions the actions call and that are not part of the
    repository: node's crypto and Buffer, JSON.stringify, parseInt and zod's
    e-mail format check. *)
Class Platform := {
  sha256_hex : string → string;
  base64 : string → string;
  JSON_stringify : JS.Json → string;
  parseInt : string → option Z;
  zod_email : string → bool;
  ZodError_message : string;
}.

(** ** Data model (definitions.ts, as used by the actions) *)

Inductive BookVariant := paperback | hardcover | ebook.
Inductive PaymentMethod := cod | prepaid.
Inductive OrderStatus := new | dispatched | delivered | cancelled.

#[global] Instance BookVariant_eq_dec : EqDecision BookVariant.
Proof. solve_decision. Defined.
#[global] Instance PaymentMethod_eq_dec : EqDecision PaymentMethod.
Proof. solve_decision. Defined.
#[global] Instance OrderStatus_eq_dec : EqDecision OrderStatus.
Proof. solve_decision. Defined.

(** [Omit<Order, 'id' | 'status' | 'createdAt' | 'hasReview'>]; the fields
    that src/src/lib/actions.ts leaves out or passes as [undefined] are
    options. *)
Record OrderData := {
  userId : string;
  name : string;
  email : string;
  phone : option string;
  address : option string;
  street : option string;
  city : option string;
  country : option string;
  state : option string;
  pinCode : option string;
  paymentMethod : PaymentMethod;
  variant : BookVariant;
  price : Z;
  originalPrice : option Z;
  discountCode : option string;
  discountAmount : option Z;
}.

Record Order := {
  id : string;
  data : OrderData;
  status : OrderStatus;
  createdAt : Z;
  hasReview : bool;
}.

Record Discount := {
  code : string;
  percent : Z;
  usageCount : Z;
}.

Record Stock := {
  stock_paperback : Z;
  stock_hardcover : Z;
}.

Record Prices := {
  prices_paperback : Z;
  prices_hardcover : Z;
}.

Record Review := {
  review_orderId : string;
  review_userId : string;
  rating : Z;
  reviewText : option string;
  userName : string;
}.

(** [prices[variant]]; the schemas admit the two physical variants only. *)
Definition prices_at (p : Prices) (v : BookVariant) : Z :=
  match v with
  | paperback => prices_paperback p
  | hardcover => prices_hardcover p
  | ebook => 0
  end.

Definition stock_at (s : Stock) (v : BookVariant) : Z :=
  match v with
  | paperback => stock_paperback s
  | hardcover => stock_hardcover s
  | ebook => 0
  end.

(** ** The gateway as seen through [fetch] *)

Record HttpRequest := {
  url : string;
  method : string;
  headers : list (string * string);
  body : option string;
}.

Fixpoint header (k : string) (hs : list (string * string)) : option string :=
  match hs with
  | [] => None
  | (k', v) :: rest => if String.eqb k k' then Some v else header k rest
  end.

(** [data.data.instrumentResponse.redirectInfo.url] of a gateway answer:
    the chain of objects may be broken, the url may be undefined, or it is a
    string. *)
Inductive UrlField :=
| PathBroken
| UrlUndefined
| Url (u : string).

Record GatewayJson := {
  g_success : bool;
  g_message : option string;
  g_url : UrlField;
}.

(** [await fetch(...)] followed by [await response.json()]: either of them
    rejects with an error, or the parsed body is returned. *)
Inductive FetchOutcome :=
| FetchRejects (msg : string)
| FetchJson (j : GatewayJson).

(** ** The world *)

Inductive LogLevel := info | error.

(** Calls into the stores, named after the imported functions. *)
Inductive StoreOp :=
| op_fetchLocationAndPrice
| op_getDiscount
| op_incrementDiscountUsage
| op_decreaseStock
| op_addOrder
| op_getOrderById
| op_updateOrderStatus
| op_addPendingOrder
| op_deletePendingOrder
| op_addReview.

(** What one call of an action finds outside the database: the process
    environment, the clock and the uuid generator, the id the order store
    generates for a new order, the signed-in user, the answer of the Pricing
    Resolver, the gateway behind [fetch], and the store calls that are
    unavailable (with the message of the error they throw). *)
Record Env := {
  PHONEPE_MERCHANT_ID : option string;
  PHONEPE_SALT_KEY : option string;
  PHONEPE_SALT_INDEX : option string;
  NEXT_PUBLIC_HOST_URL : option string;
  NEXT_PUBLIC_IS_PRODUCTION : option string;
  Date_now : Z;
  uuidv4 : string;
  new_order_id : string;
  currentUser_displayName : option string;
  location_prices : Prices;
  gateway : HttpRequest → FetchOutcome;
  outage : StoreOp → option string;
}.

(** The document database, the cache invalidations, the log sink and the
    requests sent to the gateway. *)
Record World := {
  orders : gmap (string * string) Order;
  pendingOrders : gmap string OrderData;
  stock : Stock;
  discounts : gmap string Discount;
  reviews : list Review;
  logs : list (LogLevel * string);
  revalidated : list string;
  sent : list HttpRequest;
}.

Definition with_orders (f : gmap (string * string) Order → gmap (string * string) Order)
    (w : World) : World :=
  {| orders := f (orders w); pendingOrders := pendingOrders w; stock := stock w;
     discounts := discounts w; reviews := reviews w; logs := logs w;
     revalidated := revalidated w; sent := sent w |}.

Definition with_pendingOrders (f : gmap string OrderData → gmap string OrderData)
    (w : World) : World :=
  {| orders := orders w; pendingOrders := f (pendingOrders w); stock := stock w;
     discounts := discounts w; reviews := reviews w; logs := logs w;
     revalidated := revalidated w; sent := sent w |}.

Definition with_stock (f : Stock → Stock) (w : World) : World :=
  {| orders := orders w; pendingOrders := pendingOrders w; stock := f (stock w);
     discounts := discounts w; reviews := reviews w; logs := logs w;
     revalidated := revalidated w; sent := sent w |}.

Definition with_discounts (f : gmap string Discount → gmap string Discount)
    (w : World) : World :=
  {| orders := orders w; pendingOrders := pendingOrders w; stock := stock w;
     discounts := f (discounts w); reviews := reviews w; logs := logs w;
     revalidated := revalidated w; sent := sent w |}.

Definition with_reviews (f : list Review → list Review) (w : World) : World :=
  {| orders := orders w; pendingOrders := pendingOrders w; stock := stock w;
     discounts := discounts w; reviews := f (reviews w); logs := logs w;
     revalidated := revalidated w; sent := sent w |}.

Definition with_logs (f : list (LogLevel * string) → list (LogLevel * string))
    (w : World) : World :=
  {| orders := orders w; pendingOrders := pendingOrders w; stock := stock w;
     discounts := discounts w; reviews := reviews w; logs := f (logs w);
     revalidated := revalidated w; sent := sent w |}.

Definition with_revalidated (f : list string → list string) (w : World) : World :=
  {| orders := orders w; pendingOrders := pendingOrders w; stock := stock w;
     discounts := discounts w; reviews := reviews w; logs := logs w;
     revalidated := f (revalidated w); sent := sent w |}.

Definition with_sent (f : list HttpRequest → list HttpRequest) (w : World) : World :=
  {| orders := orders w; pendingOrders := pendingOrders w; stock := stock w;
     discounts := discounts w; reviews := reviews w; logs := logs w;
     revalidated := revalidated w; sent := f (sent w) |}.

(** ** The monad of server actions *)

Definition M (A : Type) : Type := Env → World → (string + A) * World.

#[global] Instance M_ret : MRet M := λ A a _ w, (inr a, w).

#[global] Instance M_bind : MBind M := λ A B k m env w,
  match m env w with
  | (inl e, w') => (inl e, w')
  | (inr a, w') => k a env w'
  end.

(** [throw new Error(msg)] *)
Definition throw {A} (msg : string) : M A := λ _ w, (inl msg, w).

(** [try { m } catch (error) { h error.message }] *)
Definition try_catch {A} (m : M A) (h : string → M A) : M A := λ env w,
  match m env w with
  | (inl e, w') => h e env w'
  | (inr a, w') => (inr a, w')
  end.

Definition ask : M Env := λ env w, (inr env, w).
Definition modify (f : World → World) : M unit := λ _ w, (inr tt, f w).
Definition gets {A} (f : World → A) : M A := λ _ w, (inr (f w), w).

(** A store call is unavailable when the environment says so; it then throws
    before touching the database. *)
Definition store_call (op : StoreOp) : M unit := λ env w,
  match outage env op with
  | Some msg => (inl msg, w)
  | None => (inr tt, w)
  end.

(** ** Collaborators outside src/ *)

(** Modelled from the spec: log-store.ts is not in src/.  Section 6: the
    logging sink [addLog(level, message, context)] is fire-and-forget and
    never blocks or fails the calling operation.  The context object is not
    kept. *)
Definition addLog (level : LogLevel) (msg : string) : M unit :=
  modify (with_logs (λ l, l ++ [(level, msg)])).

(** [revalidatePath] of next/cache: the invalidated path is recorded. *)
Definition revalidatePath (path : string) : M unit :=
  modify (with_revalidated (λ l, l ++ [path])).

(** Modelled from the spec: fetch-location-price.ts is not in src/.
    Section 6: the Pricing Resolver returns the prices of the two physical
    variants for the caller's location. *)
Definition fetchLocationAndPrice : M Prices :=
  store_call op_fetchLocationAndPrice ;;
  env ← ask;
  mret (location_prices env).

(** Modelled from the spec: discount-store.ts is not in src/.  Section 4.3:
    [getByCode] looks the code up in the Discount Ledger. *)
Definition getDiscount (c : string) : M (option Discount) :=
  store_call op_getDiscount ;;
  gets (λ w, discounts w !! c).

Definition used_once (d : Discount) : Discount :=
  {| code := code d; percent := percent d; usageCount := usageCount d + 1 |}.

(** Modelled from the spec: discount-store.ts is not in src/.  Section 4.3:
    [incrementUsage(code)] adds one to the usage counter and is a no-op when
    the code is absent. *)
Definition incrementDiscountUsage (c : string) : M unit :=
  store_call op_incrementDiscountUsage ;;
  modify (with_discounts (alter used_once c)).

Definition stock_minus (v : BookVariant) (n : Z) (s : Stock) : Stock :=
  match v with
  | paperback => {| stock_paperback := stock_paperback s - n;
                    stock_hardcover := stock_hardcover s |}
  | hardcover => {| stock_paperback := stock_paperback s;
                    stock_hardcover := stock_hardcover s - n |}
  | ebook => s
  end.

(** Modelled from the spec: stock-store.ts is not in src/.  Sections 3 and
    4.3: [decrement(variant, n)] lowers the quantity of a physical variant by
    [n]; the e-book has no record.  What happens below zero is left open by
    the spec; a store that rejects is an [outage] of [op_decreaseStock]. *)
Definition decreaseStock (v : BookVariant) (n : Z) : M unit :=
  store_call op_decreaseStock ;;
  modify (with_stock (stock_minus v n)).

(** Modelled from the spec: order-store.ts is not in src/.  Sections 4.1 and
    6: [create(orderData)] persists the order under its customer with a
    generated id, status new, hasReview false and createdAt now. *)
Definition addOrder (d : OrderData) : M Order :=
  store_call op_addOrder ;;
  env ← ask;
  let o := {| id := new_order_id env; data := d; status := new;
              createdAt := Date_now env; hasReview := false |} in
  modify (with_orders (insert (userId d, id o) o)) ;;
  mret o.

(** Modelled from the spec: order-store.ts is not in src/.  Section 6:
    [getByIdForCustomer(custId, orderId)] returns the order or null. *)
Definition getOrderById (uid oid : string) : M (option Order) :=
  store_call op_getOrderById ;;
  gets (λ w, orders w !! (uid, oid)).

Definition set_status (st : OrderStatus) (hr : option bool) (o : Order) : Order :=
  {| id := id o; data := data o; status := st; createdAt := createdAt o;
     hasReview := default (hasReview o) hr |}.

Definition order_not_found : string := "Order not found.".

(** Modelled from the spec: order-store.ts is not in src/.  Sections 4.1 and
    6: [updateStatus(custId, orderId, status, hasReview?)] writes the status
    (and hasReview when given) with no check of the current status, and fails
    if the order cannot be located for the customer. *)
Definition updateOrderStatus (uid oid : string) (st : OrderStatus) (hr : option bool)
    : M unit :=
  store_call op_updateOrderStatus ;;
  found ← gets (λ w, orders w !! (uid, oid));
  match found with
  | Some o => modify (with_orders (insert (uid, oid) (set_status st hr o)))
  | None => throw order_not_found
  end.

(** Modelled from the spec: order-store.ts is not in src/.  Section 6:
    [createPending(txnId, data)]. *)
Definition addPendingOrder (txn : string) (d : OrderData) : M unit :=
  store_call op_addPendingOrder ;;
  modify (with_pendingOrders (insert txn d)).

(** Modelled from the spec: order-store.ts is not in src/.  Section 6:
    [deletePending(txnId)]. *)
Definition deletePendingOrder (txn : string) : M unit :=
  store_call op_deletePendingOrder ;;
  modify (with_pendingOrders (delete txn)).

(** Modelled from the spec: review-store.ts is not in src/.  Section 2: the
    Review Store persists a rating and text tied to an order. *)
Definition addReviewToStore (r : Review) : M unit :=
  store_call op_addReview ;;
  modify (with_reviews (λ l, l ++ [r])).

(** [await fetch(url, init)] and [await response.json()]: the request is
    recorded, the answer is the gateway's. *)
Definition fetch (req : HttpRequest) : M GatewayJson := λ env w,
  let w' := with_sent (λ l, l ++ [req]) w in
  match gateway env req with
  | FetchRejects msg => (inl msg, w')
  | FetchJson j => (inr j, w')
  end.

(** ** Values shared by the two modules *)

(** The object returned by the order actions; [redirectUrl] is
    [paymentData.redirectUrl] in part_001 and [redirectUrl] in actions.ts. *)
Record ActionResult := {
  success : bool;
  message : string;
  orderId : option string;
  redirectUrl : option string;
}.

Definition failed (msg : string) : ActionResult :=
  {| success := false; message := msg; orderId := None; redirectUrl := None |}.

Definition invalid_data : string := "Invalid data provided. Please check the form.".

(** [z.enum(['paperback', 'hardcover'])] *)
Definition parse_variant (s : string) : option BookVariant :=
  if String.eqb s "paperback" then Some paperback
  else if String.eqb s "hardcover" then Some hardcover
  else None.

(** [z.enum(['cod', 'prepaid'])] *)
Definition parse_paymentMethod (s : string) : option PaymentMethod :=
  if String.eqb s "cod" then Some cod
  else if String.eqb s "prepaid" then Some prepaid
  else None.

(** [z.string().min(n)] *)
Definition min_length (n : nat) (s : string) : bool := (n <=? String.length s)%nat.

(** The argument of [submitReview]. *)
Record ReviewInput := {
  input_orderId : string;
  input_userId : string;
  input_rating : Z;
  input_reviewText : option string;
}.

(** [ReviewSchema.parse(data)], which throws a ZodError on a rating outside
    1..5. *)
Definition ReviewSchema_parse `{Platform} (d : ReviewInput) : M ReviewInput :=
  if (1 <=? input_rating d) && (input_rating d <=? 5) then mret d
  else throw ZodError_message.

(** [process.env.X] read as configured: defined and not the empty string
    (the negation of [!x]). *)
Definition configured (o : option string) : option string :=
  match o with
  | Some s => if JS.truthy s then Some s else None
  | None => None
  end.

Definition not_configured : string := "PhonePe environment variables are not configured.".

Definition production_url : string := "https://api.phonepe.com/apis/hermes".
Definition sandbox_url : string := "https://api-preprod.phonepe.com/apis/pg-sandbox".

(** The message of the TypeError raised by reading a property of
    [undefined]. *)
Definition TypeError_message : string :=
  "Cannot read properties of undefined (reading 'instrumentResponse')".

(** ** src/unnamed/part_001 *)

Module Part001.

(** The argument of [placeOrder], before validation. *)
Record OrderPayload := {
  payload_variant : string;
  payload_name : string;
  payload_email : string;
  payload_phone : string;
  payload_address : string;
  payload_street : option string;
  payload_city : string;
  payload_country : string;
  payload_state : string;
  payload_pinCode : string;
  payload_userId : string;
  payload_discountCode : option string;
  payload_paymentMethod : string;
}.

(** [OrderFormSchema.safeParse(payload)]: on success the parsed data are the
    payload's strings together with the decoded variant and payment method. *)
Definition OrderFormSchema_safeParse `{Platform} (p : OrderPayload)
    : option (BookVariant * PaymentMethod) :=
  match parse_variant (payload_variant p), parse_paymentMethod (payload_paymentMethod p) with
  | Some v, Some pm =>
      if min_length 2 (payload_name p)
         && zod_email (payload_email p)
         && min_length 10 (payload_phone p)
         && min_length 5 (payload_address p)
         && min_length 2 (payload_city p)
         && min_length 2 (payload_country p)
         && min_length 2 (payload_state p)
         && min_length 3 (payload_pinCode p)
         && min_length 1 (payload_userId p)
      then Some (v, pm)
      else None
  | _, _ => None
  end.

(** [Math.round(originalPrice * (discount.percent / 100))], evaluated in
    binary64 as JavaScript does. *)
Definition percent_off (originalPrice pct : Z) : Z :=
  JS.Math_round
    (PrimFloat.mul (JS.Number_of_Z originalPrice)
       (PrimFloat.div (JS.Number_of_Z pct) (JS.Number_of_Z 100))).

(** What [initiatePhonePePayment] returns. *)
Record PaymentResponse := {
  pay_success : bool;
  pay_redirectUrl : option string;
  pay_message : option string;
}.

Definition pay_payload (merchantId merchantTransactionId merchantUserId : string)
    (amount : Z) (host : string) (mobileNumber : JS.Json) : JS.Json :=
  JS.JObj
    [ ("merchantId", JS.JStr merchantId);
      ("merchantTransactionId", JS.JStr merchantTransactionId);
      ("merchantUserId", JS.JStr merchantUserId);
      ("amount", JS.JNum amount);
      ("redirectUrl", JS.JStr (host +:+ "/api/payment/callback"));
      ("redirectMode", JS.JStr "POST");
      ("callbackUrl", JS.JStr (host +:+ "/api/payment/callback"));
      ("mobileNumber", mobileNumber);
      ("paymentInstrument", JS.JObj [("type", JS.JStr "PAY_PAGE")]) ].

Definition initiatePhonePePayment `{Platform} (order : Order) : M PaymentResponse :=
  env ← ask;
  let isProd := bool_decide (NEXT_PUBLIC_IS_PRODUCTION env = Some "true") in
  match configured (PHONEPE_MERCHANT_ID env), configured (PHONEPE_SALT_KEY env),
        configured (PHONEPE_SALT_INDEX env), configured (NEXT_PUBLIC_HOST_URL env) with
  | Some merchantId, Some saltKey, Some saltIndex, Some host =>
      let amount := price (data order) * 100 in
      let merchantTransactionId :=
        "MUID-" +:+ id order +:+ "-" +:+ JS.String_of_Z (Date_now env) in
      let merchantUserId :=
        if JS.truthy (userId (data order))
        then "CUID-" +:+ String.substring 0 25 (userId (data order))
        else "CUID-GUEST-" +:+ JS.String_of_Z (Date_now env) in
      let payload :=
        pay_payload merchantId merchantTransactionId merchantUserId amount host
          (JS.JStr_opt (phone (data order))) in
      addLog info "Initiating PhonePe payment with payload" ;;
      let base64Payload := base64 (JSON_stringify payload) in
      let apiEndpoint := "/pg/v1/pay" in
      let checksumString := base64Payload +:+ apiEndpoint +:+ saltKey in
      let sha256 := sha256_hex checksumString in
      let xVerify := sha256 +:+ "###" +:+ saltIndex in
      let apiUrl := if isProd then production_url else sandbox_url in
      try_catch
        (response ← fetch
           {| url := apiUrl +:+ apiEndpoint;
              method := "POST";
              headers := [("Content-Type", "application/json"); ("X-VERIFY", xVerify)];
              body := Some (JSON_stringify (JS.JObj [("request", JS.JStr base64Payload)])) |};
         addLog info "PhonePe API response received" ;;
         if g_success response then
           match g_url response with
           | PathBroken => throw TypeError_message
           | Url u =>
               if JS.truthy u
               then mret {| pay_success := true; pay_redirectUrl := Some u;
                            pay_message := None |}
               else mret {| pay_success := false; pay_redirectUrl := None;
                            pay_message :=
                              Some (JS.or_else (g_message response)
                                      "Failed to get redirect URL from PhonePe.") |}
           | UrlUndefined =>
               mret {| pay_success := false; pay_redirectUrl := None;
                       pay_message :=
                         Some (JS.or_else (g_message response)
                                 "Failed to get redirect URL from PhonePe.") |}
           end
         else
           mret {| pay_success := false; pay_redirectUrl := None;
                   pay_message :=
                     Some (JS.or_else (g_message response)
                             "Failed to get redirect URL from PhonePe.") |})
        (λ err,
           addLog error "PhonePe API call failed" ;;
           mret {| pay_success := false; pay_redirectUrl := None;
                   pay_message := Some err |})
  | _, _, _, _ => throw not_configured
  end.

Definition placeOrder `{Platform} (payload : OrderPayload) : M ActionResult :=
  addLog info "placeOrder action initiated." ;;
  match OrderFormSchema_safeParse payload with
  | None =>
      addLog error "Order validation failed." ;;
      mret (failed invalid_data)
  | Some (variant, paymentMethod) =>
      let discountCode := payload_discountCode payload in
      try_catch
        (prices ← fetchLocationAndPrice;
         let originalPrice := prices_at prices variant in
         '(finalPrice, discountAmount) ←
           (if JS.truthy_opt discountCode then
              discount ← getDiscount (default "" discountCode);
              match discount with
              | Some d =>
                  let discountAmount := percent_off originalPrice (percent d) in
                  mret (originalPrice - discountAmount, discountAmount)
              | None => mret (originalPrice, 0)
              end
            else mret (originalPrice, 0));
         let newOrderData :=
           {| userId := payload_userId payload;
              name := payload_name payload;
              phone := Some (payload_phone payload);
              email := payload_email payload;
              address := Some (payload_address payload);
              street := Some (JS.or_else (payload_street payload) "");
              city := Some (payload_city payload);
              country := Some (payload_country payload);
              state := Some (payload_state payload);
              pinCode := Some (payload_pinCode payload);
              paymentMethod := paymentMethod;
              variant := variant;
              price := finalPrice;
              originalPrice := Some originalPrice;
              discountCode := Some (JS.or_else discountCode "");
              discountAmount := Some discountAmount |} in
         addLog info "Attempting to add order to database with clean data..." ;;
         newOrder ← addOrder newOrderData;
         addLog info "Order successfully created in database." ;;
         match paymentMethod with
         | cod =>
             decreaseStock variant 1 ;;
             (if JS.truthy_opt discountCode
              then incrementDiscountUsage (default "" discountCode)
              else mret tt) ;;
             revalidatePath "/admin" ;;
             revalidatePath "/orders" ;;
             mret {| success := true;
                     message := "Order created successfully!";
                     orderId := Some (id newOrder);
                     redirectUrl := None |}
         | prepaid =>
             paymentResponse ← initiatePhonePePayment newOrder;
             if pay_success paymentResponse && JS.truthy_opt (pay_redirectUrl paymentResponse)
             then mret {| success := true;
                          message := "Redirecting to payment gateway.";
                          orderId := None;
                          redirectUrl := pay_redirectUrl paymentResponse |}
             else
               addLog error "PhonePe payment initiation failed." ;;
               mret (failed (JS.or_else (pay_message paymentResponse)
                               "Could not initiate payment."))
         end)
        (λ err,
           let errorMessage := JS.or_else (Some err) "An unknown error occurred." in
           addLog error "placeOrder action failed catastrophically." ;;
           mret (failed ("Could not create a new order in the database. Reason: "
                         +:+ errorMessage)))
  end.

(** What [checkPhonePeStatus] returns: the provider's answer as it came, or
    the failure object built in the catch clause. *)
Inductive StatusResult :=
| StatusData (j : GatewayJson)
| StatusFailed (msg : string).

Definition checkPhonePeStatus `{Platform} (merchantTransactionId : string)
    : M StatusResult :=
  env ← ask;
  let isProd := bool_decide (NEXT_PUBLIC_IS_PRODUCTION env = Some "true") in
  match configured (PHONEPE_MERCHANT_ID env), configured (PHONEPE_SALT_KEY env),
        configured (PHONEPE_SALT_INDEX env) with
  | Some merchantId, Some saltKey, Some saltIndex =>
      let apiEndpoint :=
        "/pg/v1/status/" +:+ merchantId +:+ "/" +:+ merchantTransactionId in
      let checksumString := apiEndpoint +:+ saltKey in
      let sha256 := sha256_hex checksumString in
      let xVerify := sha256 +:+ "###" +:+ saltIndex in
      let apiUrl := if isProd then production_url else sandbox_url in
      try_catch
        (response ← fetch
           {| url := apiUrl +:+ apiEndpoint;
              method := "GET";
              headers := [("Content-Type", "application/json");
                          ("X-MERCHANT-ID", merchantId);
                          ("X-VERIFY", xVerify)];
              body := None |};
         mret (StatusData response))
        (λ err,
           addLog error "checkPhonePeStatus failed" ;;
           mret (StatusFailed err))
  | _, _, _ => throw not_configured
  end.

Definition changeOrderStatusAction (userId orderId : string) (status : OrderStatus)
    : M unit :=
  updateOrderStatus userId orderId status None.

Definition submitReview `{Platform} (d : ReviewInput) : M ActionResult :=
  try_catch
    (validatedData ← ReviewSchema_parse d;
     order ← getOrderById (input_userId validatedData) (input_orderId validatedData);
     match order with
     | None => throw order_not_found
     | Some order =>
         let reviewData :=
           {| review_orderId := input_orderId validatedData;
              review_userId := input_userId validatedData;
              rating := input_rating validatedData;
              reviewText := input_reviewText validatedData;
              userName := name (data order) |} in
         addReviewToStore reviewData ;;
         updateOrderStatus (input_userId validatedData) (input_orderId validatedData)
           delivered (Some true) ;;
         revalidatePath "/" ;;
         revalidatePath "/orders" ;;
         mret {| success := true; message := "Review submitted successfully.";
                 orderId := None; redirectUrl := None |}
     end)
    (λ err,
       addLog error "submitReview failed" ;;
       mret (failed (JS.or_else (Some err) "Failed to submit review."))).



End Part001.

(** ** src/src/lib/actions.ts *)

Module LibActions.

(** The argument of [processPrepaidOrder], before validation
    ([z.infer<typeof OrderSchema>]). *)
Record OrderInput := {
  order_variant : string;
  order_name : string;
  order_email : string;
  order_phone : option string;
  order_address : option string;
  order_street : option string;
  order_city : option string;
  order_country : option string;
  order_state : option string;
  order_pinCode : option string;
  order_userId : string;
}.

(** The argument of [placeOrder]: [OrderSchema.extend({ paymentMethod })]. *)
Record CodOrderInput := {
  cod_fields : OrderInput;
  cod_paymentMethod : string;
}.

(** [OrderSchema.safeParse(data)]; on success the parsed data are the
    input's strings together with the decoded variant. *)
Definition OrderSchema_safeParse `{Platform} (d : OrderInput) : option BookVariant :=
  match parse_variant (order_variant d) with
  | Some v =>
      if min_length 2 (order_name d)
         && zod_email (order_email d)
         && min_length 1 (order_userId d)
      then Some v
      else None
  | None => None
  end.

(** [CodOrderSchema.safeParse(data)], with [paymentMethod: z.literal('cod')]. *)
Definition CodOrderSchema_safeParse `{Platform} (d : CodOrderInput) : option BookVariant :=
  if String.eqb (cod_paymentMethod d) "cod"
  then OrderSchema_safeParse (cod_fields d)
  else None.

(** [{ ...orderDetails, variant, price, paymentMethod, userId }] *)
Definition order_record (d : OrderInput) (v : BookVariant) (p : Z) (pm : PaymentMethod)
    : OrderData :=
  {| userId := order_userId d;
     name := order_name d;
     email := order_email d;
     phone := order_phone d;
     address := order_address d;
     street := order_street d;
     city := order_city d;
     country := order_country d;
     state := order_state d;
     pinCode := order_pinCode d;
     paymentMethod := pm;
     variant := v;
     price := p;
     originalPrice := None;
     discountCode := None;
     discountAmount := None |}.

Definition placeOrder `{Platform} (d : CodOrderInput) : M ActionResult :=
  match CodOrderSchema_safeParse d with
  | None => mret (failed invalid_data)
  | Some variant =>
      try_catch
        (prices ← fetchLocationAndPrice;
         let price := prices_at prices variant in
         decreaseStock variant 1 ;;
         newOrder ← addOrder (order_record (cod_fields d) variant price cod);
         revalidatePath "/admin" ;;
         revalidatePath "/orders" ;;
         mret {| success := true;
                 message := "Order created successfully!";
                 orderId := Some (id newOrder);
                 redirectUrl := None |})
        (λ err,
           mret (failed (JS.or_else (Some err)
                           "An error occurred while placing your order. Please try again.")))
  end.

(** The module-level constants read from [process.env]. *)
Definition MERCHANT_ID (env : Env) : string := JS.or_else (PHONEPE_MERCHANT_ID env) "".
Definition SALT_KEY (env : Env) : string := JS.or_else (PHONEPE_SALT_KEY env) "".
Definition SALT_INDEX `{Platform} (env : Env) : option Z :=
  parseInt (JS.or_else (PHONEPE_SALT_INDEX env) "1").
Definition HOST_URL (env : Env) : string :=
  JS.or_else (NEXT_PUBLIC_HOST_URL env) "http://localhost:9002".
Definition PHONEPE_API_URL : string := sandbox_url.

(** [responseData.data?.instrumentResponse?.redirectInfo?.url] *)
Definition optional_url (f : UrlField) : option string :=
  match f with
  | Url u => Some u
  | PathBroken | UrlUndefined => None
  end.

Definition processPrepaidOrder `{Platform} (d : OrderInput) : M ActionResult :=
  match OrderSchema_safeParse d with
  | None => mret (failed invalid_data)
  | Some variant =>
      let userId := order_userId d in
      try_catch
        (prices ← fetchLocationAndPrice;
         let price := prices_at prices variant in
         let amount := price * 100 in
         env ← ask;
         let merchantTransactionId :=
           String.substring 0 35 ("M" +:+ JS.String_of_Z (Date_now env) +:+ uuidv4 env) in
         let payload :=
           JS.JObj
             [ ("merchantId", JS.JStr (MERCHANT_ID env));
               ("merchantTransactionId", JS.JStr merchantTransactionId);
               ("merchantUserId", JS.JStr userId);
               ("amount", JS.JNum amount);
               ("redirectUrl", JS.JStr (HOST_URL env +:+ "/orders"));
               ("redirectMode", JS.JStr "POST");
               ("callbackUrl", JS.JStr (HOST_URL env +:+ "/api/payment/callback"));
               ("mobileNumber", JS.JStr_opt (order_phone d));
               ("paymentInstrument", JS.JObj [("type", JS.JStr "PAY_PAGE")]) ] in
         addPendingOrder merchantTransactionId (order_record d variant price prepaid) ;;
         let base64Payload := base64 (JSON_stringify payload) in
         let apiEndpoint := "/pg/v1/pay" in
         let checksum :=
           sha256_hex (base64Payload +:+ apiEndpoint +:+ SALT_KEY env)
           +:+ "###" +:+ JS.String_of_number (SALT_INDEX env) in
         responseData ← fetch
           {| url := PHONEPE_API_URL +:+ apiEndpoint;
              method := "POST";
              headers := [("Content-Type", "application/json"); ("X-VERIFY", checksum)];
              body := Some (JSON_stringify (JS.JObj [("request", JS.JStr base64Payload)])) |};
         if negb (g_success responseData)
            || negb (JS.truthy_opt (optional_url (g_url responseData)))
         then
           deletePendingOrder merchantTransactionId ;;
           throw (JS.or_else (g_message responseData)
                    "Failed to initiate payment with PhonePe.")
         else
           mret {| success := true;
                   message := "Redirecting to payment gateway.";
                   orderId := None;
                   redirectUrl := optional_url (g_url responseData) |})
        (λ e,
           mret (failed (JS.or_else (Some e)
                           "An unexpected error occurred during payment processing.")))
  end.

(** [`${status}`] *)
Definition status_name (s : OrderStatus) : string :=
  match s with
  | new => "new"
  | dispatched => "dispatched"
  | delivered => "delivered"
  | cancelled => "cancelled"
  end.

Definition changeOrderStatus (userId orderId : string) (status : OrderStatus)
    : M ActionResult :=
  try_catch
    (updateOrderStatus userId orderId status None ;;
     revalidatePath "/admin" ;;
     revalidatePath "/orders" ;;
     mret {| success := true;
             message := "Order " +:+ orderId +:+ " status updated to " +:+ status_name status;
             orderId := None; redirectUrl := None |})
    (λ err, mret (failed (JS.or_else (Some err) "Failed to update order status."))).

Definition submitReview `{Platform} (d : ReviewInput) : M ActionResult :=
  try_catch
    (validatedData ← ReviewSchema_parse d;
     env ← ask;
     let reviewData :=
       {| review_orderId := input_orderId validatedData;
          review_userId := input_userId validatedData;
          rating := input_rating validatedData;
          reviewText := input_reviewText validatedData;
          userName := JS.or_else (currentUser_displayName env) "Anonymous" |} in
     addReviewToStore reviewData ;;
     updateOrderStatus (input_userId validatedData) (input_orderId validatedData)
       delivered (Some true) ;;
     revalidatePath "/" ;;
     revalidatePath "/orders" ;;
     mret {| success := true; message := "Review submitted successfully.";
             orderId := None; redirectUrl := None |})
    (λ err, mret (failed (JS.or_else (Some err) "Failed to submit review."))).

End LibActions.

(** ** src/src/app/admin/AdminDashboard.tsx *)

Module AdminDashboard.

(** The four tabs of the order table. *)
Record Categorized := {
  tab_new : list Order;
  tab_dispatched : list Order;
  tab_delivered : list Order;
  tab_cancelled : list Order;
}.

(** [categorizedOrders], computed from the [orders] state on every render. *)
Definition categorizedOrders (orders : list Order) : Categorized :=
  {| tab_new := filter (λ o, status o = new) orders;
     tab_dispatched := filter (λ o, status o = dispatched) orders;
     tab_delivered := filter (λ o, status o = delivered) orders;
     tab_cancelled := filter (λ o, status o = cancelled) orders |}.

(** [{ ...prev, [variant]: quantity }]; the component passes 'paperback' and
    'hardcover' only, and the e-book has no field. *)
Definition set_quantity (v : BookVariant) (quantity : Z) (s : Stock) : Stock :=
  match v with
  | paperback => {| stock_paperback := quantity; stock_hardcover := stock_hardcover s |}
  | hardcover => {| stock_paperback := stock_paperback s; stock_hardcover := quantity |}
  | ebook => s
  end.

(** [handleStockChange] of StockManager as a transition of the [stock]
    state ([None] while the stock is not loaded).  [parseInt10 value] is
    [parseInt(value, 10)], with [None] for NaN. *)
Definition handleStockChange (parseInt10 : string → option Z)
    (stock : option Stock) (variant : BookVariant) (value : string) : option Stock :=
  match stock with
  | None => None
  | Some prev =>
      match parseInt10 value with
      | Some quantity =>
          if 0 <=? quantity then Some (set_quantity variant quantity prev)
          else Some prev
      | None => Some prev
      end
  end.

(** The field edits of a session, applied in order. *)
Definition edits (parseInt10 : string → option Z)
    (stock : option Stock) (changes : list (BookVariant * string)) : option Stock :=
  foldl (λ st c, handleStockChange parseInt10 st c.1 c.2) stock changes.

End AdminDashboard.

(** ** A concrete platform and outside world for the examples *)

Module Demo.

(** Symbolic stand-ins for the library functions: each one wraps its
    argument, so that the examples show what was hashed and encoded. *)
Definition contains_at (s : string) : bool :=
  match String.index 0 "@" s with
  | Some _ => true
  | None => false
  end.

Fixpoint show (j : JS.Json) : string :=
  match j with
  | JS.JStr s => "'" +:+ s +:+ "'"
  | JS.JNum z => JS.String_of_Z z
  | JS.JUndefined => "undefined"
  | JS.JObj fields =>
      "{" +:+ (fix go (l : list (string * JS.Json)) : string :=
                 match l with
                 | [] => ""
                 | (k, v) :: rest => k +:+ ":" +:+ show v +:+ ";" +:+ go rest
                 end) fields +:+ "}"
  end.

Definition decimal (s : string) : option Z :=
  if String.eqb s "1" then Some 1
  else if String.eqb s "2" then Some 2
  else None.

Definition platform : Platform := {|
  sha256_hex := λ s, "sha256(" +:+ s +:+ ")";
  base64 := λ s, "base64(" +:+ s +:+ ")";
  JSON_stringify := show;
  parseInt := decimal;
  zod_email := contains_at;
  ZodError_message := "ZodError";
|}.

Definition approve : GatewayJson :=
  {| g_success := true; g_message := None;
     g_url := Url "https://pay.example/redirect" |}.

Definition decline : GatewayJson :=
  {| g_success := false; g_message := Some "PAYMENT_ERROR"; g_url := PathBroken |}.

(** A configured environment whose gateway approves and whose stores are
    all reachable. *)
Definition env : Env :=
  {| PHONEPE_MERCHANT_ID := Some "MERCHANT";
     PHONEPE_SALT_KEY := Some "salt";
     PHONEPE_SALT_INDEX := Some "1";
     NEXT_PUBLIC_HOST_URL := Some "https://shop.example";
     NEXT_PUBLIC_IS_PRODUCTION := None;
     Date_now := 1700000000000;
     uuidv4 := "123e4567-e89b-12d3-a456-426614174000";
     new_order_id := "order-1";
     currentUser_displayName := Some "Asha";
     location_prices := {| prices_paperback := 500; prices_hardcover := 650 |};
     gateway := λ _, FetchJson approve;
     outage := λ _, None |}.

Definition with_gateway (g : HttpRequest → FetchOutcome) (e : Env) : Env :=
  {| PHONEPE_MERCHANT_ID := PHONEPE_MERCHANT_ID e;
     PHONEPE_SALT_KEY := PHONEPE_SALT_KEY e;
     PHONEPE_SALT_INDEX := PHONEPE_SALT_INDEX e;
     NEXT_PUBLIC_HOST_URL := NEXT_PUBLIC_HOST_URL e;
     NEXT_PUBLIC_IS_PRODUCTION := NEXT_PUBLIC_IS_PRODUCTION e;
     Date_now := Date_now e;
     uuidv4 := uuidv4 e;
     new_order_id := new_order_id e;
     currentUser_displayName := currentUser_displayName e;
     location_prices := location_prices e;
     gateway := g;
     outage := outage e |}.

Definition with_outage (o : StoreOp → option string) (e : Env) : Env :=
  {| PHONEPE_MERCHANT_ID := PHONEPE_MERCHANT_ID e;
     PHONEPE_SALT_KEY := PHONEPE_SALT_KEY e;
     PHONEPE_SALT_INDEX := PHONEPE_SALT_INDEX e;
     NEXT_PUBLIC_HOST_URL := NEXT_PUBLIC_HOST_URL e;
     NEXT_PUBLIC_IS_PRODUCTION := NEXT_PUBLIC_IS_PRODUCTION e;
     Date_now := Date_now e;
     uuidv4 := uuidv4 e;
     new_order_id := new_order_id e;
     currentUser_displayName := currentUser_displayName e;
     location_prices := location_prices e;
     gateway := gateway e;
     outage := o |}.

(** No payment-gateway variable is set. *)
Definition unconfigured (e : Env) : Env :=
  {| PHONEPE_MERCHANT_ID := None;
     PHONEPE_SALT_KEY := None;
     PHONEPE_SALT_INDEX := None;
     NEXT_PUBLIC_HOST_URL := NEXT_PUBLIC_HOST_URL e;
     NEXT_PUBLIC_IS_PRODUCTION := NEXT_PUBLIC_IS_PRODUCTION e;
     Date_now := Date_now e;
     uuidv4 := uuidv4 e;
     new_order_id := new_order_id e;
     currentUser_displayName := currentUser_displayName e;
     location_prices := location_prices e;
     gateway := gateway e;
     outage := outage e |}.

(** A database with ten copies of each variant and two discount codes. *)
Definition world : World :=
  {| orders := ∅;
     pendingOrders := ∅;
     stock := {| stock_paperback := 10; stock_hardcover := 10 |};
     discounts :=
       <["SAVE10" := {| code := "SAVE10"; percent := 10; usageCount := 3 |}]>
         (<["FEST35" := {| code := "FEST35"; percent := 35; usageCount := 0 |}]> ∅);
     reviews := [];
     logs := [];
     revalidated := [];
     sent := [] |}.

Definition payload (v pm : string) (c : option string) : Part001.OrderPayload :=
  {| Part001.payload_variant := v;
     Part001.payload_name := "Asha Rao";
     Part001.payload_email := "asha@example.com";
     Part001.payload_phone := "9876543210";
     Part001.payload_address := "12 Lake Road";
     Part001.payload_street := None;
     Part001.payload_city := "Pune";
     Part001.payload_country := "IN";
     Part001.payload_state := "MH";
     Part001.payload_pinCode := "411001";
     Part001.payload_userId := "user-1";
     Part001.payload_discountCode := c;
     Part001.payload_paymentMethod := pm |}.

Definition input (v : string) : LibActions.OrderInput :=
  {| LibActions.order_variant := v;
     LibActions.order_name := "Asha Rao";
     LibActions.order_email := "asha@example.com";
     LibActions.order_phone := Some "9876543210";
     LibActions.order_address := Some "12 Lake Road";
     LibActions.order_street := None;
     LibActions.order_city := Some "Pune";
     LibActions.order_country := Some "IN";
     LibActions.order_state := Some "MH";
     LibActions.order_pinCode := Some "411001";
     LibActions.order_userId := "user-1" |}.

End Demo.

(** ** Vocabulary of the statements *)

(** The ledger entry of the code supplied with an order, if the code is
    supplied (truthy) and exists in the Discount Ledger. *)
Definition supplied_discount (w : World) (c : option string) : option Discount :=
  if JS.truthy_opt c then discounts w !! default "" c else None.

(** The discount amount part_001 computes for an original price. *)
Definition discount_amount (w : World) (c : option string) (orig : Z) : Z :=
  match supplied_discount w c with
  | Some d => Part001.percent_off orig (percent d)
  | None => 0
  end.

(** The Discount Ledger after a COD order placed with code [c]. *)
Definition ledger_after_cod (w : World) (c : option string) : gmap string Discount :=
  match supplied_discount w c with
  | Some d => <[default "" c := used_once d]> (discounts w)
  | None => discounts w
  end.

(** The spec's formula [round(originalPrice × percent/100)] over the exact
    product, with Math.round's rule for ties (towards +infinity). *)
Definition spec_round_percent (orig pct : Z) : Z := (2 * orig * pct + 100) / 200.

(** The order record part_001 hands to the order store. *)
Definition placed_order `{Platform} (env : Env) (w : World) (p : Part001.OrderPayload)
    (v : BookVariant) (pm : PaymentMethod) : Order :=
  let orig := prices_at (location_prices env) v in
  let disc := discount_amount w (Part001.payload_discountCode p) orig in
  {| id := new_order_id env;
     data :=
       {| userId := Part001.payload_userId p;
          name := Part001.payload_name p;
          email := Part001.payload_email p;
          phone := Some (Part001.payload_phone p);
          address := Some (Part001.payload_address p);
          street := Some (JS.or_else (Part001.payload_street p) "");
          city := Some (Part001.payload_city p);
          country := Some (Part001.payload_country p);
          state := Some (Part001.payload_state p);
          pinCode := Some (Part001.payload_pinCode p);
          paymentMethod := pm;
          variant := v;
          price := orig - disc;
          originalPrice := Some orig;
          discountCode := Some (JS.or_else (Part001.payload_discountCode p) "");
          discountAmount := Some disc |};
     status := new;
     createdAt := Date_now env;
     hasReview := false |}.

(** The same payload with no discount code. *)
Definition without_code (p : Part001.OrderPayload) : Part001.OrderPayload :=
  {| Part001.payload_variant := Part001.payload_variant p;
     Part001.payload_name := Part001.payload_name p;
     Part001.payload_email := Part001.payload_email p;
     Part001.payload_phone := Part001.payload_phone p;
     Part001.payload_address := Part001.payload_address p;
     Part001.payload_street := Part001.payload_street p;
     Part001.payload_city := Part001.payload_city p;
     Part001.payload_country := Part001.payload_country p;
     Part001.payload_state := Part001.payload_state p;
     Part001.payload_pinCode := Part001.payload_pinCode p;
     Part001.payload_userId := Part001.payload_userId p;
     Part001.payload_discountCode := None;
     Part001.payload_paymentMethod := Part001.payload_paymentMethod p |}.

(** An order with the recorded code string blanked. *)
Definition forget_code (o : Order) : Order :=
  {| id := id o;
     data :=
       {| userId := userId (data o); name := name (data o); email := email (data o);
          phone := phone (data o); address := address (data o);
          street := street (data o); city := city (data o);
          country := country (data o); state := state (data o);
          pinCode := pinCode (data o); paymentMethod := paymentMethod (data o);
          variant := variant (data o); price := price (data o);
          originalPrice := originalPrice (data o);
          discountCode := Some "";
          discountAmount := discountAmount (data o) |};
     status := status o;
     createdAt := createdAt o;
     hasReview := hasReview o |}.

(** The action returned (did not throw) an object with [success: true]. *)
Definition succeeded (r : string + ActionResult) : bool :=
  match r with
  | inr a => success a
  | inl _ => false
  end.

(** No store call is unavailable. *)
Definition stores_up (env : Env) : Prop := ∀ op, outage env op = None.

(** The gateway answered, but not with [success] and a redirect url. *)
Definition declined (j : GatewayJson) : Prop :=
  g_success j = false ∨ JS.truthy_opt (LibActions.optional_url (g_url j)) = false.

(** The transaction id processPrepaidOrder generates. *)
Definition generated_txn (env : Env) : string :=
  String.substring 0 35 ("M" +:+ JS.String_of_Z (Date_now env) +:+ uuidv4 env).

(** An order in status new that gets reviewed. *)
Definition reviewed_world : World :=
  with_orders
    (insert ("user-1", "order-7")
       {| id := "order-7";
          data := LibActions.order_record (Demo.input "paperback") paperback 500 cod;
          status := new; createdAt := 1690000000000; hasReview := false |})
    Demo.world.

(** A cancelled order set to delivered. *)
Definition cancelled_world : World :=
  with_orders
    (insert ("user-1", "order-9")
       {| id := "order-9";
          data := LibActions.order_record (Demo.input "paperback") paperback 500 cod;
          status := cancelled; createdAt := 1690000000000; hasReview := false |})
    Demo.world.

(** The key under which the order store files the order of a payload. *)
Definition order_key (env : Env) (p : Part001.OrderPayload) : string * string :=
  (Part001.payload_userId p, new_order_id env).

(** Both quantities of a stock record are non-negative. *)
Definition stock_nonneg (s : Stock) : Prop :=
  0 ≤ stock_paperback s ∧ 0 ≤ stock_hardcover s.

(** The discount part_001 computes stays within the price, and it is the
    exact rounding of price × percent / 100 except that it may fall one short
    when the exact product ends in .5. *)
Definition discount_in_range (orig pct : Z) : bool :=
  let d := Part001.percent_off orig pct in
  let e := spec_round_percent orig pct in
  (0 <=? d) && (d <=? orig)
  && ((d =? e) || ((d =? e - 1) && ((orig * pct) mod 100 =? 50))).

Definition discounts_in_range (top : Z) : bool :=
  forallb (λ orig, forallb (discount_in_range orig) (seqZ 0 101)) (seqZ 0 (top + 1)).

(** ** Running actions symbolically *)

(** Unfolds one layer of the monad and of the collaborators, then computes
    the matches whose scrutinee has become a constructor. *)
Ltac run_M :=
  repeat
    (unfold mbind, M_bind, mret, M_ret, store_call, modify, gets, ask, try_catch,
       throw, fetch, addLog, revalidatePath, fetchLocationAndPrice, getDiscount,
       incrementDiscountUsage, decreaseStock, addOrder, getOrderById,
       updateOrderStatus, addPendingOrder, deletePendingOrder, addReviewToStore,
       ReviewSchema_parse, failed;
     cbv beta iota zeta);
  cbn [orders pendingOrders stock discounts reviews logs revalidated sent
       with_orders with_pendingOrders with_stock with_discounts with_reviews
       with_logs with_revalidated with_sent
       id data status createdAt hasReview userId price name email phone address
       street city country state pinCode paymentMethod variant originalPrice
       discountCode discountAmount
       Part001.pay_success Part001.pay_redirectUrl Part001.pay_message
       andb orb negb fst snd].

(** Splits on the first stuck scrutinee in the goal. *)
Ltac split_run :=
  match goal with
  | E : outage ?e ?op = _ |- context [outage ?e ?op] => rewrite E
  | E : gateway ?e ?r = _ |- context [gateway ?e ?r] => rewrite E
  | E : configured ?o = _ |- context [configured ?o] => rewrite E
  | E : orders ?w !! ?k = _ |- context [orders ?w !! ?k] => rewrite E
  | E : discounts ?w !! ?k = _ |- context [discounts ?w !! ?k] => rewrite E
  | |- context [match outage ?e ?op with _ => _ end] => destruct (outage e op) eqn:?
  | |- context [match gateway ?e ?r with _ => _ end] => destruct (gateway e r) eqn:?
  | |- context [match configured ?o with _ => _ end] => destruct (configured o) eqn:?
  | |- context [match orders ?w !! ?k with _ => _ end] => destruct (orders w !! k) eqn:?
  | |- context [match discounts ?w !! ?k with _ => _ end] => destruct (discounts w !! k) eqn:?
  | |- context [match ?x with _ => _ end] =>
      lazymatch x with
      | context [match _ with _ => _ end] => fail
      | _ => destruct x eqn:?
      end
  end.

(** Rewrites with the case equations collected by [split_run]. *)
Ltac use_cases :=
  repeat match goal with
         | E : JS.truthy_opt _ = _ |- _ => rewrite E
         | E : discounts _ !! _ = _ |- _ => rewrite E
         | E : orders _ !! _ = _ |- _ => rewrite E
         end.

Ltac crunch := run_M; repeat (split_run; run_M; try discriminate).

(** Closed statements: each conjunct is decided by evaluation. *)
Ltac by_evaluation := split_and!; vm_compute; reflexivity.

(** * Theorems *)

(** ** Facts about the collaborators *)

Lemma World_ext (a b : World) :
  orders a = orders b → pendingOrders a = pendingOrders b → stock a = stock b →
  discounts a = discounts b → reviews a = reviews b → logs a = logs b →
  revalidated a = revalidated b → sent a = sent b → a = b.
Proof. destruct a, b; simpl; intros; subst; reflexivity. Qed.

Lemma not_snoc {A} (l : list A) (x : A) : l ≠ l ++ [x].
Proof.
  intros Heq. apply (f_equal length) in Heq.
  rewrite length_app in Heq. simpl in Heq. lia.
Qed.

Lemma alter_found (c : string) (d : Discount) (m : gmap string Discount) :
  m !! c = Some d → alter used_once c m = <[c := used_once d]> m.
Proof.
  intros Hc. apply map_eq. intros k. destruct (decide (k = c)) as [-> | Hne].
  - by rewrite lookup_alter_eq, lookup_insert_eq, Hc.
  - by rewrite lookup_alter_ne, lookup_insert_ne.
Qed.

Lemma alter_missing (c : string) (m : gmap string Discount) :
  m !! c = None → alter used_once c m = m.
Proof.
  intros Hc. apply map_eq. intros k. destruct (decide (k = c)) as [-> | Hne].
  - by rewrite lookup_alter_eq, Hc.
  - by rewrite lookup_alter_ne.
Qed.

Lemma stock_minus_at (v v' : BookVariant) (n : Z) (s : Stock) :
  v ≠ ebook →
  stock_at (stock_minus v n s) v' = if decide (v' = v) then stock_at s v' - n else stock_at s v'.
Proof. destruct v, v'; simpl; intros ?; try done. Qed.

Lemma parse_variant_physical (s : string) (v : BookVariant) :
  parse_variant s = Some v → v ≠ ebook.
Proof.
  unfold parse_variant. repeat case_match; intros [= <-]; discriminate.
Qed.

Lemma parse_paymentMethod_prepaid (s : string) :
  s = "prepaid" → parse_paymentMethod s = Some prepaid.
Proof. intros ->. reflexivity. Qed.

Lemma parse_paymentMethod_cod (s : string) :
  s = "cod" → parse_paymentMethod s = Some cod.
Proof. intros ->. reflexivity. Qed.

(** *** The COD-only placeOrder of src/src/lib/actions.ts *)

(** C10: in the COD-only placeOrder of src/src/lib/actions.ts the stock is
    decremented before the order is persisted.  Whenever addOrder fails after
    the pricing lookup and the decrement went through, the action answers
    success:false with the store's message, no order has been written, and
    the Stock Ledger stays lowered by one for the variant: nothing on the
    error path restores it. *)
Theorem cod_placeOrder_keeps_decrement_when_addOrder_fails `{Platform}
    (env : Env) (w : World) (d : LibActions.CodOrderInput) (v : BookVariant) (msg : string) :
  LibActions.CodOrderSchema_safeParse d = Some v →
  outage env op_fetchLocationAndPrice = None →
  outage env op_decreaseStock = None →
  outage env op_addOrder = Some msg →
  ∃ r w',
    LibActions.placeOrder d env w = (inr r, w')
    ∧ success r = false
    ∧ message r = JS.or_else (Some msg)
                    "An error occurred while placing your order. Please try again."
    ∧ orderId r = None
    ∧ orders w' = orders w
    ∧ stock_at (stock w') v = stock_at (stock w) v - 1
    ∧ w' = with_stock (stock_minus v 1) w.
Proof.
  intros Hvalid Hprice Hstock Horder.
  assert (Hv : v ≠ ebook).
  { unfold LibActions.CodOrderSchema_safeParse, LibActions.OrderSchema_safeParse in Hvalid.
    repeat case_match; try discriminate.
    injection Hvalid as <-. eauto using parse_variant_physical. }
  unfold LibActions.placeOrder. rewrite Hvalid. run_M.
  rewrite Hprice, Hstock. run_M. rewrite Horder. run_M.
  eexists _, _. split; [reflexivity |].
  repeat split; simpl.
  rewrite stock_minus_at by done. by rewrite decide_True.
Qed.

(** With the pricing and stock stores up and the order store down, a valid
    COD order loses one paperback and creates no order. *)
Lemma cod_placeOrder_keeps_decrement_witness :
  ∃ r w',
    @LibActions.placeOrder Demo.platform
      {| LibActions.cod_fields := Demo.input "paperback";
         LibActions.cod_paymentMethod := "cod" |}
      (Demo.with_outage
         (λ op, match op with op_addOrder => Some "UNAVAILABLE" | _ => None end) Demo.env)
      Demo.world = (inr r, w')
    ∧ success r = false
    ∧ message r = "UNAVAILABLE"
    ∧ orderId r = None
    ∧ orders w' = orders Demo.world
    ∧ stock_at (stock w') paperback = 10 - 1
    ∧ w' = with_stock (stock_minus paperback 1) Demo.world.
Proof.
  apply (@cod_placeOrder_keeps_decrement_when_addOrder_fails Demo.platform
           (Demo.with_outage
              (λ op, match op with op_addOrder => Some "UNAVAILABLE" | _ => None end)
              Demo.env)
           Demo.world _ paperback "UNAVAILABLE"); reflexivity.
Defined.

(** *** placeOrder of src/unnamed/part_001 *)

Lemma safeParse_decodes `{Platform} (p : Part001.OrderPayload) (v : BookVariant)
    (pm : PaymentMethod) :
  Part001.OrderFormSchema_safeParse p = Some (v, pm) →
  parse_variant (Part001.payload_variant p) = Some v
  ∧ parse_paymentMethod (Part001.payload_paymentMethod p) = Some pm.
Proof.
  unfold Part001.OrderFormSchema_safeParse.
  destruct (parse_variant _), (parse_paymentMethod _); try discriminate.
  case_match; [| discriminate]. by intros [= -> ->].
Qed.

(** A successful COD placement, step by step: the order handed to the store,
    the stock, the ledger, and everything that is left alone. *)
Lemma placeOrder_cod_success `{Platform} (env : Env) (w w' : World)
    (p : Part001.OrderPayload) (r : ActionResult) :
  Part001.placeOrder p env w = (inr r, w') →
  Part001.payload_paymentMethod p = "cod" →
  success r = true →
  ∃ v,
    parse_variant (Part001.payload_variant p) = Some v
    ∧ r = {| success := true; message := "Order created successfully!";
             orderId := Some (new_order_id env); redirectUrl := None |}
    ∧ orders w' = <[(Part001.payload_userId p, new_order_id env) :=
                      placed_order env w p v cod]> (orders w)
    ∧ stock w' = stock_minus v 1 (stock w)
    ∧ discounts w' = ledger_after_cod w (Part001.payload_discountCode p)
    ∧ pendingOrders w' = pendingOrders w
    ∧ reviews w' = reviews w
    ∧ sent w' = sent w.
Proof.
  intros Hrun Hcod Hok. revert Hrun.
  unfold Part001.placeOrder.
  destruct (Part001.OrderFormSchema_safeParse p) as [[v pm] |] eqn:Hparse.
  2: { run_M. intros [= <- <-]. discriminate. }
  destruct (safeParse_decodes _ _ _ Hparse) as [Hv Hpm].
  rewrite (parse_paymentMethod_cod _ Hcod) in Hpm. injection Hpm as <-.
  crunch.
  all: intros [= <- <-]; try discriminate.
  all: exists v; split; [assumption |].
  all: unfold placed_order, discount_amount, ledger_after_cod, supplied_discount; simpl.
  all: use_cases.
  all: rewrite ?Z.sub_0_r; repeat split; eauto using alter_found, alter_missing.
Qed.

(** C2: a successful COD placement through part_001's placeOrder lowers the
    stock of the ordered variant by exactly one and leaves the other variant
    alone; the usage counter of the supplied code goes up by exactly one when
    the code was found in the ledger (a discount was applied), and no counter
    changes otherwise; the result carries the id of the order just stored.
    The SAVE10 scenario is the second half: paperback at 500 with a 10% code
    gives discountAmount 50, price 450, stock 10 → 9 and usageCount 3 → 4. *)
Theorem cod_placeOrder_stock_usage_and_id :
  (∀ (P : Platform) (env : Env) (w w' : World) (p : Part001.OrderPayload)
     (r : ActionResult),
     Part001.placeOrder p env w = (inr r, w') →
     Part001.payload_paymentMethod p = "cod" →
     success r = true →
     ∃ v o,
       parse_variant (Part001.payload_variant p) = Some v
       ∧ stock_at (stock w') v = stock_at (stock w) v - 1
       ∧ (∀ v', v' ≠ v → stock_at (stock w') v' = stock_at (stock w) v')
       ∧ (∀ d, supplied_discount w (Part001.payload_discountCode p) = Some d →
            discounts w' !! default "" (Part001.payload_discountCode p)
            = Some {| code := code d; percent := percent d;
                      usageCount := usageCount d + 1 |})
       ∧ (∀ c, supplied_discount w (Part001.payload_discountCode p) = None
               ∨ c ≠ default "" (Part001.payload_discountCode p) →
            discounts w' !! c = discounts w !! c)
       ∧ orderId r = Some (id o)
       ∧ orders w' !! (Part001.payload_userId p, id o) = Some o
       ∧ o = placed_order env w p v cod)
  ∧ (let run := @Part001.placeOrder Demo.platform
                  (Demo.payload "paperback" "cod" (Some "SAVE10")) Demo.env Demo.world in
     fst run = inr {| success := true; message := "Order created successfully!";
                      orderId := Some "order-1"; redirectUrl := None |}
     ∧ prices_at (location_prices Demo.env) paperback = 500
     ∧ percent <$> discounts Demo.world !! "SAVE10" = Some 10
     ∧ (data <$> orders (snd run) !! ("user-1", "order-1")) ≫= discountAmount = Some 50
     ∧ price <$> (data <$> orders (snd run) !! ("user-1", "order-1")) = Some 450
     ∧ stock_at (stock Demo.world) paperback = 10
     ∧ stock_at (stock (snd run)) paperback = 9
     ∧ usageCount <$> discounts Demo.world !! "SAVE10" = Some 3
     ∧ usageCount <$> discounts (snd run) !! "SAVE10" = Some 4).
Proof.
  split.
  - intros P env w w' p r Hrun Hcod Hok.
    destruct (placeOrder_cod_success env w w' p r Hrun Hcod Hok)
      as (v & Hv & -> & Horders & Hstock & Hledger & _).
    exists v, (placed_order env w p v cod).
    pose proof (parse_variant_physical _ _ Hv) as Hphys.
    split; [assumption |].
    rewrite Hstock, Horders, Hledger. unfold ledger_after_cod.
    repeat split.
    + rewrite stock_minus_at by done. by rewrite decide_True.
    + intros v' Hne. rewrite stock_minus_at by done. by rewrite decide_False.
    + intros d ->. by rewrite lookup_insert_eq.
    + intros c [-> | Hne]; [done |].
      destruct (supplied_discount w _); [| done]. by rewrite lookup_insert_ne.
    + simpl. by rewrite lookup_insert_eq.
  - by_evaluation.
Qed.

(** The general half at the SAVE10 order. *)
Lemma cod_placeOrder_stock_usage_and_id_witness :
  ∃ v o,
    parse_variant "paperback" = Some v
    ∧ stock_at (stock (snd (@Part001.placeOrder Demo.platform
         (Demo.payload "paperback" "cod" (Some "SAVE10")) Demo.env Demo.world))) v
      = stock_at (stock Demo.world) v - 1
    ∧ orderId {| success := true; message := "Order created successfully!";
                 orderId := Some "order-1"; redirectUrl := None |} = Some (id o).
Proof.
  destruct (proj1 cod_placeOrder_stock_usage_and_id Demo.platform Demo.env Demo.world
              (snd (@Part001.placeOrder Demo.platform
                      (Demo.payload "paperback" "cod" (Some "SAVE10")) Demo.env Demo.world))
              (Demo.payload "paperback" "cod" (Some "SAVE10"))
              {| success := true; message := "Order created successfully!";
                 orderId := Some "order-1"; redirectUrl := None |})
    as (v & o & Hv & Hstock & _ & _ & _ & Hid & _).
  - vm_compute. reflexivity.
  - reflexivity.
  - reflexivity.
  - exists v, o. auto.
Defined.

(** Every valid placement that reaches the order store writes exactly the
    record [placed_order], on the COD and on the prepaid branch alike and
    whatever happens afterwards. *)
Lemma placeOrder_persists `{Platform} (env : Env) (w : World)
    (p : Part001.OrderPayload) (v : BookVariant) (pm : PaymentMethod) :
  Part001.OrderFormSchema_safeParse p = Some (v, pm) →
  outage env op_fetchLocationAndPrice = None →
  outage env op_getDiscount = None →
  outage env op_addOrder = None →
  orders (snd (Part001.placeOrder p env w))
  = <[(Part001.payload_userId p, new_order_id env) := placed_order env w p v pm]> (orders w).
Proof.
  intros Hparse Hprice Hget Hadd.
  unfold Part001.placeOrder. rewrite Hparse. run_M.
  rewrite Hprice. run_M.
  unfold placed_order, discount_amount, supplied_discount.
  destruct (JS.truthy_opt (Part001.payload_discountCode p)) eqn:Hcode; run_M.
  - rewrite Hget. run_M.
    destruct (discounts w !! default "" (Part001.payload_discountCode p)) eqn:Hd;
      run_M; rewrite Hadd; run_M.
    all: destruct pm; unfold Part001.initiatePhonePePayment; crunch; simpl;
      rewrite ?Z.sub_0_r; reflexivity.
  - rewrite Hadd; run_M.
    destruct pm; unfold Part001.initiatePhonePePayment; crunch; simpl;
      rewrite ?Z.sub_0_r; reflexivity.
Qed.

(** The pricing invariant of the stored record: price is the original price
    minus the discount amount, and the amount is zero unless the supplied
    code is in the ledger. *)
Lemma placed_order_pricing `{Platform} (env : Env) (w : World)
    (p : Part001.OrderPayload) (v : BookVariant) (pm : PaymentMethod) :
  let o := data (placed_order env w p v pm) in
  let orig := prices_at (location_prices env) v in
  originalPrice o = Some orig
  ∧ discountAmount o
    = Some match supplied_discount w (Part001.payload_discountCode p) with
           | Some d => Part001.percent_off orig (percent d)
           | None => 0
           end
  ∧ price o = orig - discount_amount w (Part001.payload_discountCode p) orig.
Proof. repeat split. Qed.

(** Binary64 rounding in [percent_off]: 35/100 is not representable, the
    product with 650 falls just below 227.5 and is rounded down, while the
    same exact product reached through 50/100 is rounded up. *)
Lemma percent_off_ties :
  Part001.percent_off 650 35 = 227
  ∧ Part001.percent_off 455 50 = 228
  ∧ 650 * 35 = 455 * 50
  ∧ Part001.percent_off 500 10 = 50.
Proof. vm_compute. repeat split. Qed.

(** C1: the order part_001 stores always has
    price = originalPrice - discountAmount, and discountAmount is 0 without a
    ledger entry for the code ([placed_order_pricing]); with an entry,
    however, the amount is Math.round of a binary64 product and can miss the
    rounding of originalPrice × percent/100 by one.  A hardcover at 650 with
    the 35% code FEST35 has the exact discount 227.5 (2·650·35 = 100·455),
    which rounds to 228; the action stores discountAmount 227 and
    price 423. *)
Theorem placeOrder_discount_misses_tie_650_at_35 :
  let run := @Part001.placeOrder Demo.platform
               (Demo.payload "hardcover" "cod" (Some "FEST35")) Demo.env Demo.world in
  succeeded (fst run) = true
  ∧ percent <$> discounts Demo.world !! "FEST35" = Some 35
  ∧ (data <$> orders (snd run) !! ("user-1", "order-1")) ≫= originalPrice = Some 650
  ∧ (data <$> orders (snd run) !! ("user-1", "order-1")) ≫= discountAmount = Some 227
  ∧ price <$> (data <$> orders (snd run) !! ("user-1", "order-1")) = Some 423
  ∧ 2 * (650 * 35) = 100 * 455
  ∧ spec_round_percent 650 35 = 228.
Proof. by_evaluation. Qed.

(** C5: a code that is not in the Discount Ledger does not make the
    placement fail and is not reported.  With the ledger store reachable,
    placeOrder answers exactly as it does for the same payload without a
    code, and leaves the same database behind except that the stored order
    remembers the code string; that order has discountAmount 0 and the full
    price; and a COD order is accepted whenever the stores are up. *)
Theorem unknown_discount_code_is_ignored `{Platform} (env : Env) (w : World)
    (p : Part001.OrderPayload) (c : string) :
  Part001.payload_discountCode p = Some c →
  discounts w !! c = None →
  outage env op_getDiscount = None →
  outage env op_incrementDiscountUsage = None →
  fst (Part001.placeOrder p env w) = fst (Part001.placeOrder (without_code p) env w)
  ∧ with_orders (fmap forget_code) (snd (Part001.placeOrder p env w))
    = with_orders (fmap forget_code) (snd (Part001.placeOrder (without_code p) env w))
  ∧ discounts (snd (Part001.placeOrder p env w)) = discounts w
  ∧ (∀ v pm,
       discountAmount (data (placed_order env w p v pm)) = Some 0
       ∧ Some (price (data (placed_order env w p v pm)))
         = originalPrice (data (placed_order env w p v pm)))
  ∧ (stores_up env →
     ∀ v, Part001.OrderFormSchema_safeParse p = Some (v, cod) →
       succeeded (fst (Part001.placeOrder p env w)) = true
       ∧ orders (snd (Part001.placeOrder p env w))
         = <[(Part001.payload_userId p, new_order_id env) := placed_order env w p v cod]>
             (orders w)).
Proof.
  intros Hcode Hnone Hget Hincr.
  assert (Hamount : ∀ orig, discount_amount w (Part001.payload_discountCode p) orig = 0).
  { intros orig. unfold discount_amount, supplied_discount. rewrite Hcode. simpl.
    rewrite Hnone. by destruct (JS.truthy c). }
  assert (Hruns :
    fst (Part001.placeOrder p env w) = fst (Part001.placeOrder (without_code p) env w)
    ∧ with_orders (fmap forget_code) (snd (Part001.placeOrder p env w))
      = with_orders (fmap forget_code) (snd (Part001.placeOrder (without_code p) env w))
    ∧ discounts (snd (Part001.placeOrder p env w)) = discounts w).
  { unfold Part001.placeOrder, Part001.OrderFormSchema_safeParse, without_code.
    rewrite Hcode. change (default "" (Some c)) with c.
    cbn [Part001.payload_variant Part001.payload_name
      Part001.payload_email Part001.payload_phone Part001.payload_address
      Part001.payload_street Part001.payload_city Part001.payload_country
      Part001.payload_state Part001.payload_pinCode Part001.payload_userId
      Part001.payload_discountCode Part001.payload_paymentMethod JS.truthy_opt].
    unfold Part001.initiatePhonePePayment.
    destruct (JS.truthy c) eqn:Hc; run_M; rewrite ?Hget, ?Hincr; run_M;
      rewrite ?Hnone; crunch.
    all: split; [reflexivity |].
    all: split; [apply World_ext |].
    all: cbn [orders pendingOrders stock discounts reviews logs revalidated sent
              with_orders with_pendingOrders with_stock with_discounts with_reviews
              with_logs with_revalidated with_sent].
    all: rewrite ?fmap_insert; auto using alter_missing. }
  destruct Hruns as (Hres & Hworld & Hledger).
  split; [exact Hres | split; [exact Hworld | split; [exact Hledger | split]]].
  - intros v pm. unfold placed_order. simpl. rewrite Hamount.
    by rewrite Z.sub_0_r.
  - intros Hup v Hparse. split.
    + unfold Part001.placeOrder. rewrite Hparse, Hcode.
      change (default "" (Some c)) with c. cbn [JS.truthy_opt].
      run_M. rewrite !Hup. run_M. rewrite ?Hnone.
      destruct (JS.truthy c); run_M; rewrite ?Hup; run_M; rewrite ?Hnone, ?Hup; run_M;
        rewrite ?Hup; run_M; rewrite ?Hup; run_M; reflexivity.
    + apply placeOrder_persists; auto.
Qed.

(** An order with the code NOPE, which is not in the ledger. *)
Lemma unknown_discount_code_is_ignored_witness :
  fst (@Part001.placeOrder Demo.platform
         (Demo.payload "paperback" "cod" (Some "NOPE")) Demo.env Demo.world)
  = fst (@Part001.placeOrder Demo.platform
           (without_code (Demo.payload "paperback" "cod" (Some "NOPE")))
           Demo.env Demo.world)
  ∧ discounts (snd (@Part001.placeOrder Demo.platform
                      (Demo.payload "paperback" "cod" (Some "NOPE")) Demo.env Demo.world))
    = discounts Demo.world
  ∧ succeeded (fst (@Part001.placeOrder Demo.platform
                      (Demo.payload "paperback" "cod" (Some "NOPE")) Demo.env Demo.world))
    = true.
Proof.
  destruct (@unknown_discount_code_is_ignored Demo.platform Demo.env Demo.world
              (Demo.payload "paperback" "cod" (Some "NOPE")) "NOPE")
    as (Hres & _ & Hledger & _ & Hcod).
  - reflexivity.
  - reflexivity.
  - reflexivity.
  - reflexivity.
  - split; [exact Hres |]. split; [exact Hledger |].
    apply (Hcod (λ _, eq_refl) paperback). reflexivity.
Defined.

(** *** Prepaid initiation *)

(** A successful prepaid placement through part_001, step by step. *)
Lemma placeOrder_prepaid_success `{Platform} (env : Env) (w w' : World)
    (p : Part001.OrderPayload) (r : ActionResult) :
  Part001.placeOrder p env w = (inr r, w') →
  Part001.payload_paymentMethod p = "prepaid" →
  success r = true →
  ∃ v req j u,
    parse_variant (Part001.payload_variant p) = Some v
    ∧ r = {| success := true; message := "Redirecting to payment gateway.";
             orderId := None; redirectUrl := Some u |}
    ∧ gateway env req = FetchJson j
    ∧ g_success j = true
    ∧ g_url j = Url u
    ∧ JS.truthy u = true
    ∧ sent w' = sent w ++ [req]
    ∧ orders w' = <[(Part001.payload_userId p, new_order_id env) :=
                      placed_order env w p v prepaid]> (orders w)
    ∧ stock w' = stock w
    ∧ discounts w' = discounts w
    ∧ pendingOrders w' = pendingOrders w.
Proof.
  intros Hrun Hpre Hok. revert Hrun.
  unfold Part001.placeOrder.
  destruct (Part001.OrderFormSchema_safeParse p) as [[v pm] |] eqn:Hparse.
  2: { run_M. intros [= <- <-]. discriminate. }
  destruct (safeParse_decodes _ _ _ Hparse) as [Hv Hpm].
  rewrite (parse_paymentMethod_prepaid _ Hpre) in Hpm. injection Hpm as <-.
  unfold Part001.initiatePhonePePayment.
  crunch.
  all: intros [= <- <-]; try discriminate.
  all: exists v; eexists _, _, _; split; [assumption |].
  all: unfold placed_order, discount_amount, supplied_discount; simpl.
  all: use_cases; rewrite ?Z.sub_0_r.
  all: repeat split; eauto.
Qed.

(** A successful processPrepaidOrder of src/src/lib/actions.ts, step by
    step. *)
Lemma processPrepaidOrder_success `{Platform} (env : Env) (w w' : World)
    (d : LibActions.OrderInput) (r : ActionResult) :
  LibActions.processPrepaidOrder d env w = (inr r, w') →
  success r = true →
  ∃ v req j u txn,
    parse_variant (LibActions.order_variant d) = Some v
    ∧ r = {| success := true; message := "Redirecting to payment gateway.";
             orderId := None; redirectUrl := Some u |}
    ∧ gateway env req = FetchJson j
    ∧ g_success j = true
    ∧ g_url j = Url u
    ∧ JS.truthy u = true
    ∧ sent w' = sent w ++ [req]
    ∧ pendingOrders w'
      = <[txn := LibActions.order_record d v (prices_at (location_prices env) v) prepaid]>
          (pendingOrders w)
    ∧ orders w' = orders w
    ∧ stock w' = stock w
    ∧ discounts w' = discounts w.
Proof.
  intros Hrun Hok. revert Hrun.
  unfold LibActions.processPrepaidOrder.
  destruct (LibActions.OrderSchema_safeParse d) as [v |] eqn:Hparse.
  2: { run_M. intros [= <- <-]. discriminate. }
  assert (Hv : parse_variant (LibActions.order_variant d) = Some v).
  { unfold LibActions.OrderSchema_safeParse in Hparse.
    destruct (parse_variant _); [| discriminate].
    case_match; [| discriminate]. by injection Hparse as ->. }
  crunch.
  all: intros [= <- <-]; try discriminate.
  all: repeat match goal with
         | E : _ || _ = false |- _ => apply orb_false_elim in E as [? ?]
         | E : negb _ = false |- _ => apply negb_false_iff in E
         | E : JS.truthy_opt (LibActions.optional_url ?f) = true |- _ =>
             destruct f eqn:?; simpl in E; try discriminate
         end.
  all: exists v; eexists _, _, _, _; split; [assumption |].
  all: simpl; repeat split; eauto.
Qed.

(** C4: a prepaid placement that succeeds returns the gateway's redirect URL
    and changes neither the Stock Ledger nor any discount's usage counter, in
    part_001's placeOrder and in processPrepaidOrder of
    src/src/lib/actions.ts alike; the only writes are the order (part_001)
    or the pending order (actions.ts) and the request sent to the gateway. *)
Theorem prepaid_success_leaves_stock_and_usage `{Platform} (env : Env) (w w' : World)
    (r : ActionResult) :
  success r = true →
  (∀ p, Part001.placeOrder p env w = (inr r, w') →
        Part001.payload_paymentMethod p = "prepaid" →
        ∃ req j u,
          redirectUrl r = Some u
          ∧ gateway env req = FetchJson j ∧ g_url j = Url u ∧ JS.truthy u = true
          ∧ last (sent w') = Some req
          ∧ stock w' = stock w
          ∧ discounts w' = discounts w
          ∧ (∀ c, usageCount <$> discounts w' !! c = usageCount <$> discounts w !! c))
  ∧ (∀ d, LibActions.processPrepaidOrder d env w = (inr r, w') →
        ∃ req j u,
          redirectUrl r = Some u
          ∧ gateway env req = FetchJson j ∧ g_url j = Url u ∧ JS.truthy u = true
          ∧ last (sent w') = Some req
          ∧ stock w' = stock w
          ∧ discounts w' = discounts w
          ∧ (∀ c, usageCount <$> discounts w' !! c = usageCount <$> discounts w !! c)).
Proof.
  intros Hok. split.
  - intros p Hrun Hpre.
    destruct (placeOrder_prepaid_success env w w' p r Hrun Hpre Hok)
      as (v & req & j & u & _ & -> & Hg & _ & Hu & Ht & Hsent & _ & Hs & Hd & _).
    exists req, j, u. rewrite Hsent, Hs, Hd, last_snoc. repeat split; auto.
  - intros d Hrun.
    destruct (processPrepaidOrder_success env w w' d r Hrun Hok)
      as (v & req & j & u & txn & _ & -> & Hg & _ & Hu & Ht & Hsent & _ & _ & Hs & Hd).
    exists req, j, u. rewrite Hsent, Hs, Hd, last_snoc. repeat split; auto.
Qed.

(** The approving gateway of the examples, reached through both modules. *)
Lemma prepaid_success_leaves_stock_and_usage_witness :
  let r := {| success := true; message := "Redirecting to payment gateway.";
              orderId := None; redirectUrl := Some "https://pay.example/redirect" |} in
  (∃ w' req j u,
     @Part001.placeOrder Demo.platform (Demo.payload "paperback" "prepaid" (Some "SAVE10"))
       Demo.env Demo.world = (inr r, w')
     ∧ redirectUrl r = Some u
     ∧ gateway Demo.env req = FetchJson j ∧ g_url j = Url u
     ∧ last (sent w') = Some req
     ∧ stock w' = stock Demo.world
     ∧ discounts w' = discounts Demo.world)
  ∧ (∃ w' req j u,
       @LibActions.processPrepaidOrder Demo.platform (Demo.input "hardcover")
         Demo.env Demo.world = (inr r, w')
       ∧ redirectUrl r = Some u
       ∧ gateway Demo.env req = FetchJson j ∧ g_url j = Url u
       ∧ last (sent w') = Some req
       ∧ stock w' = stock Demo.world
       ∧ discounts w' = discounts Demo.world).
Proof.
  intros r. split.
  - pose (w' := snd (@Part001.placeOrder Demo.platform
                       (Demo.payload "paperback" "prepaid" (Some "SAVE10"))
                       Demo.env Demo.world)).
    assert (Hrun : @Part001.placeOrder Demo.platform
                     (Demo.payload "paperback" "prepaid" (Some "SAVE10"))
                     Demo.env Demo.world = (inr r, w'))
      by (vm_compute; reflexivity).
    destruct (proj1 (@prepaid_success_leaves_stock_and_usage Demo.platform Demo.env
                       Demo.world w' r eq_refl)
                (Demo.payload "paperback" "prepaid" (Some "SAVE10")) Hrun eq_refl)
      as (req & j & u & Hu & Hg & Hj & _ & Hlast & Hs & Hd & _).
    exists w', req, j, u. repeat split; assumption.
  - pose (w' := snd (@LibActions.processPrepaidOrder Demo.platform
                       (Demo.input "hardcover") Demo.env Demo.world)).
    assert (Hrun : @LibActions.processPrepaidOrder Demo.platform
                     (Demo.input "hardcover") Demo.env Demo.world = (inr r, w'))
      by (vm_compute; reflexivity).
    destruct (proj2 (@prepaid_success_leaves_stock_and_usage Demo.platform Demo.env
                       Demo.world w' r eq_refl) (Demo.input "hardcover") Hrun)
      as (req & j & u & Hu & Hg & Hj & _ & Hlast & Hs & Hd & _).
    exists w', req, j, u. repeat split; assumption.
Defined.

(** placeOrder of part_001 never touches the pending orders. *)
Lemma placeOrder_no_pending `{Platform} (env : Env) (w : World)
    (p : Part001.OrderPayload) :
  pendingOrders (snd (Part001.placeOrder p env w)) = pendingOrders w.
Proof.
  unfold Part001.placeOrder, Part001.initiatePhonePePayment.
  destruct (Part001.OrderFormSchema_safeParse p) as [[v pm] |]; crunch; reflexivity.
Qed.

(** C3, as the claim states it, fails on part_001: the prepaid branch of
    placeOrder stores the order before it turns to the gateway and leaves it
    there when the gateway declines. *)
Lemma prepaid_decline_leaves_order_counterexample :
  let run := @Part001.placeOrder Demo.platform (Demo.payload "paperback" "prepaid" None)
               (Demo.with_gateway (λ _, FetchJson Demo.decline) Demo.env) Demo.world in
  fst run = inr (failed "PAYMENT_ERROR")
  ∧ length (sent (snd run)) = 1%nat
  ∧ orders Demo.world !! ("user-1", "order-1") = None
  ∧ status <$> orders (snd run) !! ("user-1", "order-1") = Some new
  ∧ pendingOrders Demo.world = ∅
  ∧ pendingOrders (snd run) = ∅.
Proof. by_evaluation. Qed.

(** The slip next to it: when [fetch] itself rejects, processPrepaidOrder
    reaches its catch clause without deleting the pending order. *)
Example processPrepaidOrder_rejected_fetch_keeps_pending :
  let env := Demo.with_gateway (λ _, FetchRejects "ECONNREFUSED") Demo.env in
  let run := @LibActions.processPrepaidOrder Demo.platform (Demo.input "hardcover")
               env Demo.world in
  fst run = inr (failed "ECONNREFUSED")
  ∧ paymentMethod <$> pendingOrders (snd run) !! generated_txn env = Some prepaid.
Proof. by_evaluation. Qed.

(** C3, amended: when the gateway answers processPrepaidOrder with a failure
    payload and the pending-order store is reachable, the action reports
    failure, the PendingOrder written for the generated transaction id is
    deleted again and no Order is created; part_001's placeOrder creates no
    PendingOrder at all and, whatever the gateway does, keeps the Order it
    stored before initiation, in status new. *)
Theorem prepaid_decline_cleans_pending_only `{Platform} (env : Env) (w : World) :
  (∀ d w' r req j,
     LibActions.processPrepaidOrder d env w = (inr r, w') →
     sent w' = sent w ++ [req] →
     gateway env req = FetchJson j →
     declined j →
     outage env op_deletePendingOrder = None →
     success r = false
     ∧ message r = JS.or_else (Some (JS.or_else (g_message j)
                                      "Failed to initiate payment with PhonePe."))
                     "An unexpected error occurred during payment processing."
     ∧ pendingOrders w' !! generated_txn env = None
     ∧ pendingOrders w' = delete (generated_txn env) (pendingOrders w)
     ∧ orders w' = orders w)
  ∧ (∀ p v,
       Part001.OrderFormSchema_safeParse p = Some (v, prepaid) →
       outage env op_fetchLocationAndPrice = None →
       outage env op_getDiscount = None →
       outage env op_addOrder = None →
       pendingOrders (snd (Part001.placeOrder p env w)) = pendingOrders w
       ∧ orders (snd (Part001.placeOrder p env w)) !! (Part001.payload_userId p, new_order_id env)
         = Some (placed_order env w p v prepaid)
       ∧ status (placed_order env w p v prepaid) = new).
Proof.
  split.
  - intros d w' r req j Hrun Hsent Hg Hdecl Hdel. revert Hrun.
    unfold LibActions.processPrepaidOrder.
    destruct (LibActions.OrderSchema_safeParse d) as [v |] eqn:Hparse.
    2: { run_M. intros [= <- <-]. by apply not_snoc in Hsent. }
    run_M.
    destruct (outage env op_fetchLocationAndPrice); run_M.
    { intros [= <- <-]. by apply not_snoc in Hsent. }
    destruct (outage env op_addPendingOrder); run_M.
    { intros [= <- <-]. by apply not_snoc in Hsent. }
    match goal with
    | |- context [gateway env ?q] => set (q0 := q)
    end.
    destruct (gateway env q0) as [msg | j'] eqn:Hq; run_M.
    + intros [= <- <-]. cbn [sent with_sent with_pendingOrders] in Hsent.
      apply app_inj_tail in Hsent as [_ <-]. congruence.
    + destruct (negb (g_success j')
                || negb (JS.truthy_opt (LibActions.optional_url (g_url j'))))
        eqn:Hfail; run_M.
      * rewrite Hdel. run_M. intros [= <- <-].
        cbn [sent with_sent with_pendingOrders] in Hsent.
        apply app_inj_tail in Hsent as [_ <-].
        rewrite Hg in Hq. injection Hq as <-.
        cbn [success message orders pendingOrders with_pendingOrders with_sent].
        unfold generated_txn.
        rewrite lookup_delete_eq, delete_insert_eq. repeat split.
      * intros [= <- <-]. cbn [sent with_sent with_pendingOrders] in Hsent.
        apply app_inj_tail in Hsent as [_ <-].
        rewrite Hg in Hq. injection Hq as <-.
        destruct Hdecl as [Hd | Hd]; rewrite Hd in Hfail; simpl in Hfail;
          rewrite ?orb_true_r in Hfail; discriminate.
  - intros p v Hparse Hprice Hget Hadd. split; [apply placeOrder_no_pending |].
    rewrite (placeOrder_persists env w p v prepaid) by assumption.
    by rewrite lookup_insert_eq.
Qed.

(** A declining gateway answering processPrepaidOrder. *)
Lemma prepaid_decline_cleans_pending_only_witness :
  declined Demo.decline
  ∧ ∃ w',
      pendingOrders w' !! generated_txn (Demo.with_gateway (λ _, FetchJson Demo.decline) Demo.env)
      = None
      ∧ orders w' = orders Demo.world.
Proof.
  split; [by left |].
  pose (env := Demo.with_gateway (λ _, FetchJson Demo.decline) Demo.env).
  pose (run := @LibActions.processPrepaidOrder Demo.platform (Demo.input "hardcover")
                 env Demo.world).
  exists (snd run).
  destruct (proj1 (@prepaid_decline_cleans_pending_only Demo.platform env Demo.world)
              (Demo.input "hardcover") (snd run)
              (failed "PAYMENT_ERROR")
              (default {| url := ""; method := ""; headers := []; body := None |}
                 (last (sent (snd run))))
              Demo.decline)
    as (_ & _ & Hgone & _ & Horders).
  - vm_compute. reflexivity.
  - vm_compute. reflexivity.
  - reflexivity.
  - by left.
  - reflexivity.
  - split; assumption.
Defined.

(** *** Signing and configuration of the gateway requests *)

(** The request processPrepaidOrder sends: signed with the module-level
    constants, whatever the environment holds. *)
Lemma processPrepaidOrder_request `{Platform} (env : Env) (w : World)
    (d : LibActions.OrderInput) (v : BookVariant) :
  LibActions.OrderSchema_safeParse d = Some v →
  outage env op_fetchLocationAndPrice = None →
  outage env op_addPendingOrder = None →
  ∃ payload req,
    sent (snd (LibActions.processPrepaidOrder d env w)) = sent w ++ [req]
    ∧ JS.get "amount" payload = Some (JS.JNum (prices_at (location_prices env) v * 100))
    ∧ JS.get "merchantId" payload = Some (JS.JStr (LibActions.MERCHANT_ID env))
    ∧ method req = "POST"
    ∧ body req
      = Some (JSON_stringify (JS.JObj [("request", JS.JStr (base64 (JSON_stringify payload)))]))
    ∧ header "X-VERIFY" (headers req)
      = Some (sha256_hex (base64 (JSON_stringify payload) +:+ "/pg/v1/pay"
                          +:+ LibActions.SALT_KEY env)
              +:+ "###" +:+ JS.String_of_number (LibActions.SALT_INDEX env)).
Proof.
  intros Hparse Hprice Hpend.
  unfold LibActions.processPrepaidOrder. rewrite Hparse. run_M.
  rewrite Hprice. run_M. rewrite Hpend. run_M.
  match goal with |- context [base64 (JSON_stringify ?pl)] => exists pl end.
  match goal with |- context [gateway env ?q] => exists q end.
  split; [crunch; reflexivity | repeat split].
Qed.

(** C8: with the gateway variables configured, initiatePhonePePayment sends
    one POST whose X-VERIFY header is
    hex(SHA-256(base64Payload ++ "/pg/v1/pay" ++ secret)) ++ "###" ++ keyIndex,
    whose body wraps the same base64 payload and whose amount field is
    price × 100; checkPhonePeStatus sends one GET without a body, signs the
    status path (which names the merchant and the transaction) with the same
    scheme and carries the merchant id in the X-MERCHANT-ID header. *)
Theorem gateway_requests_are_signed `{Platform} (env : Env) (w : World)
    (merchantId saltKey saltIndex : string) :
  configured (PHONEPE_MERCHANT_ID env) = Some merchantId →
  configured (PHONEPE_SALT_KEY env) = Some saltKey →
  configured (PHONEPE_SALT_INDEX env) = Some saltIndex →
  (∀ order host,
     configured (NEXT_PUBLIC_HOST_URL env) = Some host →
     ∃ payload req,
       sent (snd (Part001.initiatePhonePePayment order env w)) = sent w ++ [req]
       ∧ JS.get "amount" payload = Some (JS.JNum (price (data order) * 100))
       ∧ JS.get "merchantId" payload = Some (JS.JStr merchantId)
       ∧ method req = "POST"
       ∧ body req
         = Some (JSON_stringify
                   (JS.JObj [("request", JS.JStr (base64 (JSON_stringify payload)))]))
       ∧ header "X-VERIFY" (headers req)
         = Some (sha256_hex (base64 (JSON_stringify payload) +:+ "/pg/v1/pay" +:+ saltKey)
                 +:+ "###" +:+ saltIndex))
  ∧ (∀ txn,
       let path := "/pg/v1/status/" +:+ merchantId +:+ "/" +:+ txn in
       ∃ api req,
         sent (snd (Part001.checkPhonePeStatus txn env w)) = sent w ++ [req]
         ∧ method req = "GET"
         ∧ body req = None
         ∧ url req = api +:+ path
         ∧ header "X-MERCHANT-ID" (headers req) = Some merchantId
         ∧ header "X-VERIFY" (headers req)
           = Some (sha256_hex (path +:+ saltKey) +:+ "###" +:+ saltIndex)).
Proof.
  intros Hmid Hkey Hidx. split.
  - intros order host Hhost.
    unfold Part001.initiatePhonePePayment. run_M.
    rewrite Hmid, Hkey, Hidx, Hhost. run_M.
    match goal with |- context [base64 (JSON_stringify ?pl)] => exists pl end.
    match goal with |- context [gateway env ?q] => exists q end.
    split; [crunch; reflexivity | repeat split].
  - intros txn path.
    unfold Part001.checkPhonePeStatus. run_M.
    rewrite Hmid, Hkey, Hidx. run_M.
    exists (if bool_decide (NEXT_PUBLIC_IS_PRODUCTION env = Some "true")
            then production_url else sandbox_url).
    match goal with |- context [gateway env ?q] => exists q end.
    split; [crunch; reflexivity |].
    subst path. repeat split.
Qed.

(** The configured environment of the examples. *)
Lemma gateway_requests_are_signed_witness :
  ∃ req,
    sent (snd (@Part001.checkPhonePeStatus Demo.platform "T1" Demo.env Demo.world)) = [req]
    ∧ header "X-MERCHANT-ID" (headers req) = Some "MERCHANT"
    ∧ header "X-VERIFY" (headers req)
      = Some "sha256(/pg/v1/status/MERCHANT/T1salt)###1".
Proof.
  destruct (proj2 (@gateway_requests_are_signed Demo.platform Demo.env Demo.world
                     "MERCHANT" "salt" "1" eq_refl eq_refl eq_refl) "T1")
    as (api & req & Hsent & _ & _ & _ & Hmid & Hsig).
  exists req. repeat split; assumption.
Defined.

(** C9: part_001 refuses to build a request when the merchant id, the secret
    or the key index is missing ([missing_gateway_config_throws_in_part001]),
    but processPrepaidOrder of src/src/lib/actions.ts does not fail on it: it
    reads the variables through [|| ''] and [parseInt(... || '1')] and never
    checks them, so with no gateway variable set it signs with the empty
    secret and key index 1, sends the request and reports success. *)
Theorem processPrepaidOrder_signs_without_configuration :
  let env := Demo.unconfigured Demo.env in
  let run := @LibActions.processPrepaidOrder Demo.platform (Demo.input "hardcover")
               env Demo.world in
  PHONEPE_MERCHANT_ID env = None
  ∧ PHONEPE_SALT_KEY env = None
  ∧ PHONEPE_SALT_INDEX env = None
  ∧ succeeded (fst run) = true
  ∧ length (sent (snd run)) = 1%nat
  ∧ (last (sent (snd run)) ≫= λ req, header "X-VERIFY" (headers req))
    = Some ("sha256(base64({merchantId:'';merchantTransactionId:'M1700000000000123e4567-e89b-12d3-a4';merchantUserId:'user-1';amount:65000;redirectUrl:'https://shop.example/orders';redirectMode:'POST';callbackUrl:'https://shop.example/api/payment/callback';mobileNumber:'9876543210';paymentInstrument:{type:'PAY_PAGE';};})/pg/v1/pay)###1").
Proof. by_evaluation. Qed.

(** The check that part_001 does make: a missing merchant id, secret or key
    index makes initiatePhonePePayment and checkPhonePeStatus throw the
    configuration error before anything is logged, signed or sent, and a
    prepaid placeOrder then answers success:false without a request having
    left; the last part restates what processPrepaidOrder signs with. *)
Theorem missing_gateway_config_throws_in_part001 `{Platform} (env : Env) (w : World) :
  configured (PHONEPE_MERCHANT_ID env) = None
  ∨ configured (PHONEPE_SALT_KEY env) = None
  ∨ configured (PHONEPE_SALT_INDEX env) = None →
  (∀ order, Part001.initiatePhonePePayment order env w = (inl not_configured, w))
  ∧ (∀ txn, Part001.checkPhonePeStatus txn env w = (inl not_configured, w))
  ∧ (∀ p, Part001.payload_paymentMethod p = "prepaid" →
          succeeded (fst (Part001.placeOrder p env w)) = false
          ∧ sent (snd (Part001.placeOrder p env w)) = sent w)
  ∧ (∀ d v,
       LibActions.OrderSchema_safeParse d = Some v →
       outage env op_fetchLocationAndPrice = None →
       outage env op_addPendingOrder = None →
       ∃ payload req,
         sent (snd (LibActions.processPrepaidOrder d env w)) = sent w ++ [req]
         ∧ header "X-VERIFY" (headers req)
           = Some (sha256_hex (base64 (JSON_stringify payload) +:+ "/pg/v1/pay"
                               +:+ JS.or_else (PHONEPE_SALT_KEY env) "")
                   +:+ "###"
                   +:+ JS.String_of_number
                         (parseInt (JS.or_else (PHONEPE_SALT_INDEX env) "1")))).
Proof.
  intros Hmissing.
  assert (Hinit : ∀ order w0,
             Part001.initiatePhonePePayment order env w0 = (inl not_configured, w0)).
  { intros order w0. unfold Part001.initiatePhonePePayment. run_M.
    destruct Hmissing as [Hm | [Hm | Hm]]; rewrite Hm; repeat case_match; reflexivity. }
  split; [| split; [| split]].
  - intros order. apply Hinit.
  - intros txn. unfold Part001.checkPhonePeStatus. run_M.
    destruct Hmissing as [Hm | [Hm | Hm]]; rewrite Hm; repeat case_match; reflexivity.
  - intros p Hpre. unfold Part001.placeOrder.
    destruct (Part001.OrderFormSchema_safeParse p) as [[v pm] |] eqn:Hparse.
    2: { run_M. split; reflexivity. }
    destruct (safeParse_decodes _ _ _ Hparse) as [_ Hpm].
    rewrite (parse_paymentMethod_prepaid _ Hpre) in Hpm. injection Hpm as <-.
    run_M.
    repeat (first [rewrite Hinit | split_run]; run_M; try (split; reflexivity)).
  - intros d v Hparse Hprice Hpend.
    destruct (processPrepaidOrder_request env w d v Hparse Hprice Hpend)
      as (payload & req & Hsent & _ & _ & _ & _ & Hsig).
    exists payload, req. split; assumption.
Qed.

(** An environment without the merchant id. *)
Lemma missing_gateway_config_throws_in_part001_witness :
  @Part001.checkPhonePeStatus Demo.platform "T1" (Demo.unconfigured Demo.env) Demo.world
  = (inl not_configured, Demo.world)
  ∧ sent (snd (@Part001.placeOrder Demo.platform
                 (Demo.payload "paperback" "prepaid" None)
                 (Demo.unconfigured Demo.env) Demo.world))
    = sent Demo.world.
Proof.
  destruct (@missing_gateway_config_throws_in_part001 Demo.platform
              (Demo.unconfigured Demo.env) Demo.world)
    as (_ & Hstatus & Hplace & _).
  - left. reflexivity.
  - split; [apply Hstatus |].
    apply (Hplace (Demo.payload "paperback" "prepaid" None)). reflexivity.
Defined.

(** *** Reviews and status changes *)

(** C6: submitReview fails when the user has no order with that id, in both
    modules (part_001 looks the order up first; actions.ts fails in the
    status update).  When it succeeds, the review has been appended to the
    review store and the order has status delivered and hasReview true,
    whatever its status was before; and it does succeed for every located
    order, a rating within 1..5 and reachable stores. *)
Theorem submitReview_needs_order_and_forces_delivered `{Platform} (env : Env) (w : World)
    (d : ReviewInput) :
  let key := (input_userId d, input_orderId d) in
  (orders w !! key = None →
     succeeded (fst (Part001.submitReview d env w)) = false
     ∧ succeeded (fst (LibActions.submitReview d env w)) = false)
  ∧ (∀ o, orders w !! key = Some o →
       (succeeded (fst (Part001.submitReview d env w)) = true →
          reviews (snd (Part001.submitReview d env w))
          = reviews w ++ [{| review_orderId := input_orderId d;
                             review_userId := input_userId d;
                             rating := input_rating d;
                             reviewText := input_reviewText d;
                             userName := name (data o) |}]
          ∧ orders (snd (Part001.submitReview d env w)) !! key
            = Some {| id := id o; data := data o; status := delivered;
                      createdAt := createdAt o; hasReview := true |})
       ∧ (succeeded (fst (LibActions.submitReview d env w)) = true →
          reviews (snd (LibActions.submitReview d env w))
          = reviews w ++ [{| review_orderId := input_orderId d;
                             review_userId := input_userId d;
                             rating := input_rating d;
                             reviewText := input_reviewText d;
                             userName := JS.or_else (currentUser_displayName env)
                                           "Anonymous" |}]
          ∧ orders (snd (LibActions.submitReview d env w)) !! key
            = Some {| id := id o; data := data o; status := delivered;
                      createdAt := createdAt o; hasReview := true |})
       ∧ (1 ≤ input_rating d ≤ 5 → stores_up env →
          succeeded (fst (Part001.submitReview d env w)) = true
          ∧ succeeded (fst (LibActions.submitReview d env w)) = true)).
Proof.
  intros key. subst key. split.
  - intros Hnone. split.
    + unfold Part001.submitReview. crunch; reflexivity.
    + unfold LibActions.submitReview. crunch; reflexivity.
  - intros o Hsome. split; [| split].
    + unfold Part001.submitReview. crunch; intros Hok; try discriminate.
      simpl. rewrite lookup_insert_eq. split; reflexivity.
    + unfold LibActions.submitReview. crunch; intros Hok; try discriminate.
      simpl. rewrite lookup_insert_eq. split; reflexivity.
    + intros [Hlo Hhi] Hup.
      apply Z.leb_le in Hlo. apply Z.leb_le in Hhi.
      split.
      * unfold Part001.submitReview. run_M. rewrite Hlo, Hhi. run_M.
        rewrite !Hup. run_M. rewrite Hsome. run_M. rewrite !Hup. run_M.
        rewrite Hsome. reflexivity.
      * unfold LibActions.submitReview. run_M. rewrite Hlo, Hhi. run_M.
        rewrite !Hup. run_M. rewrite Hsome. reflexivity.
Qed.

Lemma submitReview_needs_order_and_forces_delivered_witness :
  let d := {| input_orderId := "order-7"; input_userId := "user-1";
              input_rating := 5; input_reviewText := Some "Moving." |} in
  succeeded (fst (@Part001.submitReview Demo.platform d Demo.env reviewed_world)) = true
  ∧ status <$> orders (snd (@Part001.submitReview Demo.platform d Demo.env reviewed_world))
                 !! ("user-1", "order-7") = Some delivered
  ∧ succeeded (fst (@Part001.submitReview Demo.platform d Demo.env Demo.world)) = false.
Proof.
  intros d.
  destruct (@submitReview_needs_order_and_forces_delivered Demo.platform Demo.env
              reviewed_world d) as [_ Hfound].
  destruct (Hfound {| id := "order-7";
                      data := LibActions.order_record (Demo.input "paperback")
                                paperback 500 cod;
                      status := new; createdAt := 1690000000000; hasReview := false |})
    as (Hpart & _ & Hok).
  { reflexivity. }
  destruct Hok as [Hok _]; [simpl; lia | intros op; reflexivity |].
  destruct (Hpart Hok) as [_ Horder].
  split; [exact Hok |]. split.
  - simpl in Horder. rewrite Horder. reflexivity.
  - apply (@submitReview_needs_order_and_forces_delivered Demo.platform Demo.env
             Demo.world d). reflexivity.
Defined.

(** C7: with the order store reachable, changing the status of an order that
    exists for the customer succeeds for every current and every new status
    (cancelled to delivered included) and writes the new status; the change
    fails exactly when the order cannot be located, as success:false in
    changeOrderStatus and as the store's exception in
    changeOrderStatusAction. *)
Theorem changeOrderStatus_allows_every_transition (env : Env) (w : World)
    (uid oid : string) (st : OrderStatus) :
  outage env op_updateOrderStatus = None →
  (∀ o, orders w !! (uid, oid) = Some o →
     ∃ r w',
       LibActions.changeOrderStatus uid oid st env w = (inr r, w')
       ∧ success r = true
       ∧ orders w' !! (uid, oid)
         = Some {| id := id o; data := data o; status := st;
                   createdAt := createdAt o; hasReview := hasReview o |}
       ∧ Part001.changeOrderStatusAction uid oid st env w
         = (inr tt, with_orders (insert (uid, oid) (set_status st None o)) w))
  ∧ (orders w !! (uid, oid) = None →
     LibActions.changeOrderStatus uid oid st env w = (inr (failed order_not_found), w)
     ∧ Part001.changeOrderStatusAction uid oid st env w = (inl order_not_found, w))
  ∧ (succeeded (fst (LibActions.changeOrderStatus uid oid st env w)) = false
     ↔ orders w !! (uid, oid) = None).
Proof.
  intros Hup. split; [| split].
  - intros o Hsome.
    unfold LibActions.changeOrderStatus, Part001.changeOrderStatusAction.
    run_M. rewrite Hup. run_M. rewrite Hsome. run_M.
    eexists _, _. split; [reflexivity |]. simpl.
    rewrite lookup_insert_eq. repeat split.
  - intros Hnone.
    unfold LibActions.changeOrderStatus, Part001.changeOrderStatusAction.
    run_M. rewrite Hup. run_M. rewrite Hnone. run_M. split; reflexivity.
  - unfold LibActions.changeOrderStatus.
    run_M. rewrite Hup. run_M.
    destruct (orders w !! (uid, oid)); run_M; simpl; split; intros; done.
Qed.

Lemma changeOrderStatus_allows_every_transition_witness :
  ∃ r w',
    LibActions.changeOrderStatus "user-1" "order-9" delivered Demo.env cancelled_world
    = (inr r, w')
    ∧ success r = true
    ∧ status <$> orders cancelled_world !! ("user-1", "order-9") = Some cancelled
    ∧ status <$> orders w' !! ("user-1", "order-9") = Some delivered.
Proof.
  destruct (changeOrderStatus_allows_every_transition Demo.env cancelled_world
              "user-1" "order-9" delivered eq_refl) as (Hfound & _).
  destruct (Hfound {| id := "order-9";
                      data := LibActions.order_record (Demo.input "paperback")
                                paperback 500 cod;
                      status := cancelled; createdAt := 1690000000000;
                      hasReview := false |} eq_refl)
    as (r & w' & Hrun & Hok & Horder & _).
  exists r, w'. repeat split; try assumption.
  rewrite Horder. reflexivity.
Defined.

(** * Further properties of the actions *)

(** ** Results instead of exceptions *)

(** X1: the order and review actions never throw: whatever the payload, the
    environment and the stores do, placeOrder and submitReview of part_001
    and placeOrder, processPrepaidOrder, changeOrderStatus and submitReview
    of src/src/lib/actions.ts return a result object. *)
Theorem actions_return_a_result `{Platform} (env : Env) (w : World) :
  (∀ p, ∃ r w', Part001.placeOrder p env w = (inr r, w'))
  ∧ (∀ d, ∃ r w', Part001.submitReview d env w = (inr r, w'))
  ∧ (∀ d, ∃ r w', LibActions.placeOrder d env w = (inr r, w'))
  ∧ (∀ d, ∃ r w', LibActions.processPrepaidOrder d env w = (inr r, w'))
  ∧ (∀ uid oid st, ∃ r w', LibActions.changeOrderStatus uid oid st env w = (inr r, w'))
  ∧ (∀ d, ∃ r w', LibActions.submitReview d env w = (inr r, w')).
Proof.
  split_and!.
  - intros p. unfold Part001.placeOrder, Part001.initiatePhonePePayment.
    crunch; eauto.
  - intros d. unfold Part001.submitReview. crunch; eauto.
  - intros d. unfold LibActions.placeOrder. crunch; eauto.
  - intros d. unfold LibActions.processPrepaidOrder. crunch; eauto.
  - intros uid oid st. unfold LibActions.changeOrderStatus. crunch; eauto.
  - intros d. unfold LibActions.submitReview. crunch; eauto.
Qed.

(** ** Rejected input *)

(** X2: a variant other than 'paperback' and 'hardcover' (the e-book, for
    one) is rejected by all three order actions with the generic message and
    before any store or the gateway is touched: part_001 writes its two log
    lines and nothing else, the actions of src/src/lib/actions.ts leave the
    world as it was. *)
Theorem unknown_variant_is_rejected_untouched `{Platform} (env : Env) (w : World)
    (p : Part001.OrderPayload) (d : LibActions.OrderInput) (pm : string) :
  parse_variant (Part001.payload_variant p) = None →
  parse_variant (LibActions.order_variant d) = None →
  Part001.placeOrder p env w
  = (inr (failed invalid_data),
     with_logs (λ l, l ++ [(info, "placeOrder action initiated.");
                           (error, "Order validation failed.")]) w)
  ∧ LibActions.placeOrder {| LibActions.cod_fields := d;
                             LibActions.cod_paymentMethod := pm |} env w
    = (inr (failed invalid_data), w)
  ∧ LibActions.processPrepaidOrder d env w = (inr (failed invalid_data), w).
Proof.
  intros Hp Hd. split_and!.
  - unfold Part001.placeOrder, Part001.OrderFormSchema_safeParse. rewrite Hp.
    run_M. f_equal. apply World_ext; cbn [orders pendingOrders stock discounts
      reviews logs revalidated sent with_logs]; try reflexivity.
    by rewrite <- app_assoc.
  - unfold LibActions.placeOrder, LibActions.CodOrderSchema_safeParse,
      LibActions.OrderSchema_safeParse. cbn [LibActions.cod_fields
      LibActions.cod_paymentMethod]. rewrite Hd. by destruct (String.eqb pm "cod").
  - unfold LibActions.processPrepaidOrder, LibActions.OrderSchema_safeParse.
    by rewrite Hd.
Qed.

(** An e-book order. *)
Lemma unknown_variant_is_rejected_untouched_witness :
  fst (@Part001.placeOrder Demo.platform (Demo.payload "ebook" "cod" None)
         Demo.env Demo.world) = inr (failed invalid_data)
  ∧ @LibActions.processPrepaidOrder Demo.platform (Demo.input "ebook") Demo.env Demo.world
    = (inr (failed invalid_data), Demo.world).
Proof.
  destruct (@unknown_variant_is_rejected_untouched Demo.platform Demo.env Demo.world
              (Demo.payload "ebook" "cod" None) (Demo.input "ebook") "cod"
              eq_refl eq_refl) as (Hp & _ & Hd).
  split; [by rewrite Hp | exact Hd].
Defined.

(** ** Partial failures of the COD path of part_001 *)

(** X3: in part_001 the order is stored before the stock and the ledger are
    updated.  If decreaseStock fails, the action reports that it could not
    create the order, yet the order is in the store, with stock and ledger
    untouched; if incrementDiscountUsage fails for a supplied code, the order
    is stored and the stock is already lowered by one. *)
Theorem cod_failure_after_persist_keeps_order `{Platform} (env : Env) (w : World)
    (p : Part001.OrderPayload) (v : BookVariant) (msg : string) :
  Part001.OrderFormSchema_safeParse p = Some (v, cod) →
  outage env op_fetchLocationAndPrice = None →
  outage env op_getDiscount = None →
  outage env op_addOrder = None →
  let run := Part001.placeOrder p env w in
  let report :=
    inr (failed ("Could not create a new order in the database. Reason: "
                 +:+ JS.or_else (Some msg) "An unknown error occurred.")) in
  (outage env op_decreaseStock = Some msg →
     fst run = report
     ∧ orders (snd run) !! order_key env p = Some (placed_order env w p v cod)
     ∧ stock (snd run) = stock w
     ∧ discounts (snd run) = discounts w)
  ∧ (outage env op_decreaseStock = None →
     outage env op_incrementDiscountUsage = Some msg →
     JS.truthy_opt (Part001.payload_discountCode p) = true →
     fst run = report
     ∧ orders (snd run) !! order_key env p = Some (placed_order env w p v cod)
     ∧ stock (snd run) = stock_minus v 1 (stock w)
     ∧ discounts (snd run) = discounts w).
Proof.
  intros Hparse Hprice Hget Hadd run report.
  assert (Horder : orders (snd run) !! order_key env p = Some (placed_order env w p v cod)).
  { unfold run. rewrite (placeOrder_persists env w p v cod) by assumption.
    apply lookup_insert_eq. }
  split.
  - intros Hstock. split_and!; [| exact Horder | |];
      unfold run, report, Part001.placeOrder; rewrite Hparse; crunch; reflexivity.
  - intros Hstock Hincr Hcode. split_and!; [| exact Horder | |];
      unfold run, report, Part001.placeOrder; rewrite Hparse, Hcode; crunch;
      reflexivity.
Qed.

(** The stock store is down while a paperback is ordered. *)
Lemma cod_failure_after_persist_keeps_order_witness :
  let env := Demo.with_outage
               (λ op, match op with op_decreaseStock => Some "UNAVAILABLE" | _ => None end)
               Demo.env in
  let run := @Part001.placeOrder Demo.platform (Demo.payload "paperback" "cod" None)
               env Demo.world in
  succeeded (fst run) = false
  ∧ is_Some (orders (snd run) !! ("user-1", "order-1"))
  ∧ stock (snd run) = stock Demo.world.
Proof.
  intros env run.
  destruct (@cod_failure_after_persist_keeps_order Demo.platform env Demo.world
              (Demo.payload "paperback" "cod" None) paperback "UNAVAILABLE"
              eq_refl eq_refl eq_refl eq_refl) as [Hstock _].
  destruct (Hstock eq_refl) as (Hres & Horder & Hs & _).
  split_and!.
  - unfold run. by rewrite Hres.
  - eexists. exact Horder.
  - exact Hs.
Defined.

(** ** The COD-only placeOrder of src/src/lib/actions.ts *)

(** X4: placeOrder of src/src/lib/actions.ts succeeds exactly when the input
    is valid and the pricing, stock and order stores answer.  On success it
    files one order at the resolver's price for the variant (no discount
    fields), in status new, lowers the stock of that variant by one and
    invalidates /admin and /orders; on failure no order has been written and
    no path invalidated. *)
Theorem lib_placeOrder_outcome `{Platform} (env : Env) (w : World)
    (d : LibActions.CodOrderInput) :
  let run := LibActions.placeOrder d env w in
  (succeeded (fst run) = true
   ↔ is_Some (LibActions.CodOrderSchema_safeParse d)
     ∧ outage env op_fetchLocationAndPrice = None
     ∧ outage env op_decreaseStock = None
     ∧ outage env op_addOrder = None)
  ∧ (succeeded (fst run) = false →
     orders (snd run) = orders w ∧ revalidated (snd run) = revalidated w)
  ∧ (∀ v, LibActions.CodOrderSchema_safeParse d = Some v →
          succeeded (fst run) = true →
     fst run = inr {| success := true; message := "Order created successfully!";
                      orderId := Some (new_order_id env); redirectUrl := None |}
     ∧ orders (snd run)
       = <[(LibActions.order_userId (LibActions.cod_fields d), new_order_id env) :=
             {| id := new_order_id env;
                data := LibActions.order_record (LibActions.cod_fields d) v
                          (prices_at (location_prices env) v) cod;
                status := new; createdAt := Date_now env; hasReview := false |}]>
           (orders w)
     ∧ stock (snd run) = stock_minus v 1 (stock w)
     ∧ revalidated (snd run) = revalidated w ++ ["/admin"; "/orders"]
     ∧ discounts (snd run) = discounts w
     ∧ pendingOrders (snd run) = pendingOrders w
     ∧ sent (snd run) = sent w).
Proof.
  intros run. unfold run, LibActions.placeOrder. split_and!.
  - destruct (LibActions.CodOrderSchema_safeParse d) as [v |]; crunch; simpl;
      split; try done; try (intros (? & ? & ? & ?); congruence);
      try (intros ([? ?] & _); congruence).
  - destruct (LibActions.CodOrderSchema_safeParse d) as [v |]; crunch; simpl;
      intros; try done; try discriminate.
  - intros v ->. crunch; simpl; intros; try discriminate.
    split_and!; try reflexivity. by rewrite <- app_assoc.
Qed.

(** ** What placeOrder of part_001 leaves alone *)

(** X5: placeOrder of part_001 changes the order store at one key only, the
    pair of the payload's user id and the generated order id; what it writes
    there is a fresh order in status new, without a review and for a physical
    variant.  Orders under every other key, reviews and pending orders are
    never touched. *)
Theorem placeOrder_touches_one_order `{Platform} (env : Env) (w : World)
    (p : Part001.OrderPayload) :
  let w' := snd (Part001.placeOrder p env w) in
  (∀ k, k ≠ order_key env p → orders w' !! k = orders w !! k)
  ∧ (orders w' !! order_key env p = orders w !! order_key env p
     ∨ ∃ o, orders w' !! order_key env p = Some o
            ∧ id o = new_order_id env
            ∧ userId (data o) = Part001.payload_userId p
            ∧ status o = new
            ∧ hasReview o = false
            ∧ variant (data o) ≠ ebook)
  ∧ reviews w' = reviews w
  ∧ pendingOrders w' = pendingOrders w.
Proof.
  intros w'. subst w'. split_and!.
  - intros k Hk. unfold Part001.placeOrder, Part001.initiatePhonePePayment.
    destruct (Part001.OrderFormSchema_safeParse p) as [[v pm] |]; crunch;
      rewrite ?lookup_insert_ne; done.
  - unfold Part001.placeOrder, Part001.initiatePhonePePayment.
    destruct (Part001.OrderFormSchema_safeParse p) as [[v pm] |] eqn:Hparse;
      [| left; crunch; reflexivity].
    destruct (safeParse_decodes _ _ _ Hparse) as [Hv _].
    pose proof (parse_variant_physical _ _ Hv) as Hphys.
    crunch; first [by left | right; unfold order_key; rewrite lookup_insert_eq;
                              eexists; split; [reflexivity |]; by split_and!].
  - unfold Part001.placeOrder, Part001.initiatePhonePePayment.
    destruct (Part001.OrderFormSchema_safeParse p) as [[v pm] |]; crunch; reflexivity.
  - apply placeOrder_no_pending.
Qed.

(** X6: the two branches of part_001's placeOrder keep to themselves,
    whatever the outcome: a COD placement never sends a request to the
    gateway, and a prepaid placement never changes the stock, the discount
    ledger or the cached pages. *)
Theorem placeOrder_branches_do_not_mix `{Platform} (env : Env) (w : World)
    (p : Part001.OrderPayload) :
  let w' := snd (Part001.placeOrder p env w) in
  (Part001.payload_paymentMethod p = "cod" → sent w' = sent w)
  ∧ (Part001.payload_paymentMethod p = "prepaid" →
     stock w' = stock w ∧ discounts w' = discounts w ∧ revalidated w' = revalidated w).
Proof.
  intros w'. subst w'. split.
  - intros Hcod. unfold Part001.placeOrder.
    destruct (Part001.OrderFormSchema_safeParse p) as [[v pm] |] eqn:Hparse;
      [| crunch; reflexivity].
    destruct (safeParse_decodes _ _ _ Hparse) as [_ Hpm].
    rewrite (parse_paymentMethod_cod _ Hcod) in Hpm. injection Hpm as <-.
    crunch; reflexivity.
  - intros Hpre. unfold Part001.placeOrder, Part001.initiatePhonePePayment.
    destruct (Part001.OrderFormSchema_safeParse p) as [[v pm] |] eqn:Hparse;
      [| crunch; done].
    destruct (safeParse_decodes _ _ _ Hparse) as [_ Hpm].
    rewrite (parse_paymentMethod_prepaid _ Hpre) in Hpm. injection Hpm as <-.
    crunch; done.
Qed.

Lemma placeOrder_branches_do_not_mix_witness :
  sent (snd (@Part001.placeOrder Demo.platform (Demo.payload "paperback" "cod" (Some "SAVE10"))
               Demo.env Demo.world)) = sent Demo.world
  ∧ stock (snd (@Part001.placeOrder Demo.platform
                  (Demo.payload "paperback" "prepaid" (Some "SAVE10"))
                  Demo.env Demo.world)) = stock Demo.world.
Proof.
  split.
  - apply (proj1 (@placeOrder_branches_do_not_mix Demo.platform Demo.env Demo.world
                    (Demo.payload "paperback" "cod" (Some "SAVE10")))). reflexivity.
  - apply (proj2 (@placeOrder_branches_do_not_mix Demo.platform Demo.env Demo.world
                    (Demo.payload "paperback" "prepaid" (Some "SAVE10")))). reflexivity.
Defined.

(** X7: one placement through part_001 moves the stock and the ledger by at
    most one step: every quantity stays or drops by exactly one, never rises;
    every ledger entry stays or has its usage counter raised by one, and no
    code is added, removed or given another percentage. *)
Theorem placeOrder_moves_counters_by_one `{Platform} (env : Env) (w : World)
    (p : Part001.OrderPayload) :
  let w' := snd (Part001.placeOrder p env w) in
  (∀ v, stock_at (stock w') v = stock_at (stock w) v
        ∨ stock_at (stock w') v = stock_at (stock w) v - 1)
  ∧ (∀ c, discounts w' !! c = discounts w !! c
          ∨ discounts w' !! c = used_once <$> discounts w !! c)
  ∧ (∀ c, percent <$> discounts w' !! c = percent <$> discounts w !! c).
Proof.
  intros w'. subst w'.
  assert (Hledger : ∀ c, discounts (snd (Part001.placeOrder p env w)) !! c
                         = discounts w !! c
                         ∨ discounts (snd (Part001.placeOrder p env w)) !! c
                           = used_once <$> discounts w !! c).
  { intros c. unfold Part001.placeOrder, Part001.initiatePhonePePayment.
    destruct (Part001.OrderFormSchema_safeParse p) as [[v pm] |]; crunch;
      try (by left).
    all: match goal with
         | |- context [alter used_once ?k _ !! ?c0] =>
             destruct (decide (k = c0)) as [<- | ?];
             [right; by rewrite lookup_alter_eq | left; by rewrite lookup_alter_ne]
         end. }
  split_and!.
  - intros v0. unfold Part001.placeOrder, Part001.initiatePhonePePayment.
    destruct (Part001.OrderFormSchema_safeParse p) as [[v pm] |] eqn:Hparse;
      [| crunch; by left].
    destruct (safeParse_decodes _ _ _ Hparse) as [Hv _].
    pose proof (parse_variant_physical _ _ Hv) as Hphys.
    crunch; try (by left).
    all: rewrite stock_minus_at by done; case_decide; [by right | by left].
  - exact Hledger.
  - intros c. destruct (Hledger c) as [-> | ->]; [done |].
    by destruct (discounts w !! c).
Qed.

(** ** The requests sent to the gateway *)

Lemma length_append (a b : string) :
  String.length (a +:+ b) = (String.length a + String.length b)%nat.
Proof. induction a as [| c a IH]; simpl; [done | by rewrite IH]. Qed.

Lemma length_substring_le (n : nat) (s : string) :
  (String.length (String.substring 0 n s) ≤ n)%nat.
Proof.
  revert s. induction n as [| n IH]; intros [| c s]; simpl; try lia.
  specialize (IH s). lia.
Qed.

Lemma min_length_truthy (s : string) : min_length 1 s = true → JS.truthy s = true.
Proof. by destruct s. Qed.

Lemma safeParse_userId `{Platform} (p : Part001.OrderPayload) (v : BookVariant)
    (pm : PaymentMethod) :
  Part001.OrderFormSchema_safeParse p = Some (v, pm) →
  JS.truthy (Part001.payload_userId p) = true.
Proof.
  unfold Part001.OrderFormSchema_safeParse.
  destruct (parse_variant (Part001.payload_variant p)),
    (parse_paymentMethod (Part001.payload_paymentMethod p)); try discriminate.
  case_match eqn:Hall; [| discriminate]. intros _.
  apply andb_prop in Hall as [_ Hu]. by apply min_length_truthy.
Qed.

(** X8: a valid prepaid placement through part_001 that reaches the gateway
    asks it for the price of the order it has just stored, discount deducted,
    times 100; the transaction id names that order ("MUID-" ++ id ++ "-" ++
    time), the user id is "CUID-" followed by at most 25 characters of the
    customer's id, so never longer than 30, and the mobile number is the
    order's phone. *)
Theorem prepaid_request_matches_stored_order `{Platform} (env : Env) (w : World)
    (p : Part001.OrderPayload) (v : BookVariant) (merchantId saltKey saltIndex host : string) :
  Part001.OrderFormSchema_safeParse p = Some (v, prepaid) →
  outage env op_fetchLocationAndPrice = None →
  outage env op_getDiscount = None →
  outage env op_addOrder = None →
  configured (PHONEPE_MERCHANT_ID env) = Some merchantId →
  configured (PHONEPE_SALT_KEY env) = Some saltKey →
  configured (PHONEPE_SALT_INDEX env) = Some saltIndex →
  configured (NEXT_PUBLIC_HOST_URL env) = Some host →
  let w' := snd (Part001.placeOrder p env w) in
  let o := placed_order env w p v prepaid in
  ∃ payload req cuid,
    sent w' = sent w ++ [req]
    ∧ orders w' !! order_key env p = Some o
    ∧ body req
      = Some (JSON_stringify
                (JS.JObj [("request", JS.JStr (base64 (JSON_stringify payload)))]))
    ∧ JS.get "amount" payload = Some (JS.JNum (price (data o) * 100))
    ∧ price (data o)
      = prices_at (location_prices env) v
        - discount_amount w (Part001.payload_discountCode p)
            (prices_at (location_prices env) v)
    ∧ JS.get "merchantTransactionId" payload
      = Some (JS.JStr ("MUID-" +:+ id o +:+ "-" +:+ JS.String_of_Z (Date_now env)))
    ∧ JS.get "merchantUserId" payload = Some (JS.JStr cuid)
    ∧ cuid = "CUID-" +:+ String.substring 0 25 (Part001.payload_userId p)
    ∧ (String.length cuid ≤ 30)%nat
    ∧ JS.get "mobileNumber" payload = Some (JS.JStr (Part001.payload_phone p)).
Proof.
  intros Hparse Hprice Hget Hadd Hmid Hkey Hidx Hhost w' o.
  pose proof (safeParse_userId _ _ _ Hparse) as Huid.
  assert (Horder : orders w' !! order_key env p = Some o).
  { unfold w', o. rewrite (placeOrder_persists env w p v prepaid) by assumption.
    apply lookup_insert_eq. }
  assert (Hlen : (String.length ("CUID-" +:+ String.substring 0 25 (Part001.payload_userId p))
                  ≤ 30)%nat).
  { rewrite length_append. pose proof (length_substring_le 25 (Part001.payload_userId p)).
    simpl. lia. }
  unfold w', o, placed_order, discount_amount, supplied_discount in *.
  clear w' o. revert Horder.
  unfold Part001.placeOrder, Part001.initiatePhonePePayment. rewrite Hparse.
  run_M. rewrite Hprice. run_M.
  destruct (JS.truthy_opt (Part001.payload_discountCode p)) eqn:Hcode; run_M;
    rewrite ?Hget; run_M.
  1: destruct (discounts w !! default "" (Part001.payload_discountCode p)); run_M.
  all: rewrite Hadd; run_M; rewrite Hmid, Hkey, Hidx, Hhost; run_M; rewrite Huid.
  all: match goal with |- context [base64 (JSON_stringify ?pl)] => intros Horder; exists pl end.
  all: match goal with |- context [gateway _ ?q] => exists q end.
  all: eexists; split; [crunch; reflexivity |].
  all: split; [exact Horder |].
  all: rewrite ?Z.sub_0_r; split_and!; try reflexivity; exact Hlen.
Qed.

Lemma prepaid_request_matches_stored_order_witness :
  ∃ payload req,
    sent (snd (@Part001.placeOrder Demo.platform
                 (Demo.payload "paperback" "prepaid" (Some "SAVE10"))
                 Demo.env Demo.world)) = sent Demo.world ++ [req]
    ∧ JS.get "amount" payload = Some (JS.JNum (450 * 100))
    ∧ JS.get "merchantUserId" payload = Some (JS.JStr "CUID-user-1").
Proof.
  destruct (@prepaid_request_matches_stored_order Demo.platform Demo.env Demo.world
              (Demo.payload "paperback" "prepaid" (Some "SAVE10")) paperback
              "MERCHANT" "salt" "1" "https://shop.example"
              eq_refl eq_refl eq_refl eq_refl eq_refl eq_refl eq_refl eq_refl)
    as (payload & req & cuid & Hsent & _ & _ & Hamount & _ & _ & Hcuid & -> & _).
  exists payload, req. split_and!; [exact Hsent | exact Hamount | exact Hcuid].
Defined.

(** X9: the transaction id processPrepaidOrder generates is at most 35
    characters long; the same id is sent to the gateway in the payload and
    used as the key of the pending order, and when the action succeeds the
    pending order is still filed under it, at the resolver's price and as
    prepaid. *)
Theorem processPrepaidOrder_transaction_id `{Platform} (env : Env) (w : World)
    (d : LibActions.OrderInput) (v : BookVariant) :
  LibActions.OrderSchema_safeParse d = Some v →
  outage env op_fetchLocationAndPrice = None →
  outage env op_addPendingOrder = None →
  let run := LibActions.processPrepaidOrder d env w in
  let txn := generated_txn env in
  (String.length txn ≤ 35)%nat
  ∧ (∃ payload req,
       sent (snd run) = sent w ++ [req]
       ∧ body req
         = Some (JSON_stringify
                   (JS.JObj [("request", JS.JStr (base64 (JSON_stringify payload)))]))
       ∧ JS.get "merchantTransactionId" payload = Some (JS.JStr txn)
       ∧ JS.get "merchantUserId" payload = Some (JS.JStr (LibActions.order_userId d)))
  ∧ (succeeded (fst run) = true →
     pendingOrders (snd run) !! txn
     = Some (LibActions.order_record d v (prices_at (location_prices env) v) prepaid))
  ∧ (∀ k, k ≠ txn → pendingOrders (snd run) !! k = pendingOrders w !! k).
Proof.
  intros Hparse Hprice Hpend run txn. subst run txn. split_and!.
  - apply length_substring_le.
  - unfold LibActions.processPrepaidOrder. rewrite Hparse. run_M.
    rewrite Hprice. run_M. rewrite Hpend. run_M.
    match goal with |- context [base64 (JSON_stringify ?pl)] => exists pl end.
    match goal with |- context [gateway env ?q] => exists q end.
    split; [crunch; reflexivity | by split_and!].
  - unfold LibActions.processPrepaidOrder. rewrite Hparse. crunch; simpl;
      intros; try discriminate. unfold generated_txn. by rewrite lookup_insert_eq.
  - intros k Hk. unfold LibActions.processPrepaidOrder. rewrite Hparse. crunch;
      unfold generated_txn in Hk;
      rewrite ?lookup_delete_ne, ?lookup_insert_ne; done.
Qed.

Lemma processPrepaidOrder_transaction_id_witness :
  (String.length (generated_txn Demo.env) ≤ 35)%nat
  ∧ is_Some (pendingOrders (snd (@LibActions.processPrepaidOrder Demo.platform
                                   (Demo.input "hardcover") Demo.env Demo.world))
             !! generated_txn Demo.env).
Proof.
  destruct (@processPrepaidOrder_transaction_id Demo.platform Demo.env Demo.world
              (Demo.input "hardcover") hardcover eq_refl eq_refl eq_refl)
    as (Hlen & _ & Hpending & _).
  split; [exact Hlen |]. rewrite Hpending; [eauto | reflexivity].
Defined.

(** X10: processPrepaidOrder of src/src/lib/actions.ts posts to the sandbox
    endpoint whatever NEXT_PUBLIC_IS_PRODUCTION says, while
    initiatePhonePePayment and checkPhonePeStatus of part_001 use the
    production host exactly when the variable is the string 'true' and the
    sandbox otherwise. *)
Theorem gateway_endpoint_selection `{Platform} (env : Env) (w : World) (req : HttpRequest) :
  let live := NEXT_PUBLIC_IS_PRODUCTION env = Some "true" in
  (∀ d, req ∈ sent (snd (LibActions.processPrepaidOrder d env w)) →
        req ∈ sent w ∨ url req = sandbox_url +:+ "/pg/v1/pay")
  ∧ (∀ order, req ∈ sent (snd (Part001.initiatePhonePePayment order env w)) →
        req ∈ sent w
        ∨ (live ∧ url req = production_url +:+ "/pg/v1/pay")
        ∨ (¬ live ∧ url req = sandbox_url +:+ "/pg/v1/pay"))
  ∧ (∀ txn, req ∈ sent (snd (Part001.checkPhonePeStatus txn env w)) →
        req ∈ sent w
        ∨ ∃ path, (live ∧ url req = production_url +:+ path)
                  ∨ (¬ live ∧ url req = sandbox_url +:+ path)).
Proof.
  intros live. subst live. split_and!.
  - intros d. unfold LibActions.processPrepaidOrder. crunch;
      intros Hin; first [by left | apply elem_of_app in Hin as [? | ->%list_elem_of_singleton]; auto].
  - intros order. unfold Part001.initiatePhonePePayment. run_M.
    destruct (bool_decide (NEXT_PUBLIC_IS_PRODUCTION env = Some "true")) eqn:Hlive;
      [apply bool_decide_eq_true in Hlive | apply bool_decide_eq_false in Hlive].
    all: crunch; intros Hin; first [by left | apply elem_of_app in Hin as [? | ->%list_elem_of_singleton]; auto].
  - intros txn. unfold Part001.checkPhonePeStatus. run_M.
    destruct (bool_decide (NEXT_PUBLIC_IS_PRODUCTION env = Some "true")) eqn:Hlive;
      [apply bool_decide_eq_true in Hlive | apply bool_decide_eq_false in Hlive].
    all: crunch; intros Hin; first [by left | apply elem_of_app in Hin as [? | ->%list_elem_of_singleton]; eauto].
Qed.

(** X11: once the four variables are configured, initiatePhonePePayment never
    throws and sends exactly one request.  It reports success exactly when the
    gateway answered with a truthy success flag and a non-empty redirect url,
    and then returns that url; a rejected fetch comes back as a failure
    carrying the error's message, and every failure carries a message and no
    url. *)
Theorem initiatePhonePePayment_outcome `{Platform} (env : Env) (w : World) (order : Order)
    (merchantId saltKey saltIndex host : string) :
  configured (PHONEPE_MERCHANT_ID env) = Some merchantId →
  configured (PHONEPE_SALT_KEY env) = Some saltKey →
  configured (PHONEPE_SALT_INDEX env) = Some saltIndex →
  configured (NEXT_PUBLIC_HOST_URL env) = Some host →
  ∃ resp w' req,
    Part001.initiatePhonePePayment order env w = (inr resp, w')
    ∧ sent w' = sent w ++ [req]
    ∧ (Part001.pay_success resp = true
       ↔ ∃ j u, gateway env req = FetchJson j ∧ g_success j = true
                ∧ g_url j = Url u ∧ JS.truthy u = true)
    ∧ (∀ j u, gateway env req = FetchJson j → g_url j = Url u →
              Part001.pay_success resp = true →
              Part001.pay_redirectUrl resp = Some u)
    ∧ (∀ msg, gateway env req = FetchRejects msg →
              resp = {| Part001.pay_success := false; Part001.pay_redirectUrl := None;
                        Part001.pay_message := Some msg |})
    ∧ (Part001.pay_success resp = false →
       Part001.pay_redirectUrl resp = None ∧ is_Some (Part001.pay_message resp))
    ∧ orders w' = orders w ∧ stock w' = stock w ∧ discounts w' = discounts w.
Proof.
  intros Hmid Hkey Hidx Hhost.
  unfold Part001.initiatePhonePePayment. run_M.
  rewrite Hmid, Hkey, Hidx, Hhost. run_M.
  match goal with |- context [gateway env ?q] => set (q0 := q) end.
  destruct (gateway env q0) as [msg | j] eqn:Hq; run_M.
  - eexists _, _, q0. split; [reflexivity |]. cbn [sent with_sent with_logs
      orders stock discounts Part001.pay_success Part001.pay_redirectUrl
      Part001.pay_message]. rewrite Hq.
    split_and!; try done; eauto.
    + split; [done | intros (? & ? & ? & _); congruence].
    + by intros ? [= ->].
  - destruct (g_success j) eqn:Hs; run_M.
    2: { eexists _, _, q0. split; [reflexivity |]. cbn [sent with_sent with_logs
           orders stock discounts Part001.pay_success Part001.pay_redirectUrl
           Part001.pay_message]. rewrite Hq.
         split_and!; try done; eauto.
         split; [done | intros (? & ? & [= <-] & ? & _); congruence]. }
    destruct (g_url j) as [| | u] eqn:Hu; run_M.
    3: destruct (JS.truthy u) eqn:Ht; run_M.
    all: eexists _, _, q0; (split; [reflexivity |]); cbn [sent with_sent with_logs
           orders stock discounts Part001.pay_success Part001.pay_redirectUrl
           Part001.pay_message]; rewrite Hq.
    all: split_and!; try done; eauto.
    all: try (split; [done | intros (? & ? & [= <-] & ? & ? & ?); congruence]).
    + split; [intros _; eauto 10 | done].
    + intros ? ? [= <-] ? _. congruence.
Qed.

(** A gateway that cannot be reached. *)
Lemma initiatePhonePePayment_outcome_witness :
  let env := Demo.with_gateway (λ _, FetchRejects "ECONNREFUSED") Demo.env in
  ∃ w',
    @Part001.initiatePhonePePayment Demo.platform
      (placed_order (H := Demo.platform) Demo.env Demo.world
         (Demo.payload "paperback" "prepaid" None) paperback prepaid) env Demo.world
    = (inr {| Part001.pay_success := false; Part001.pay_redirectUrl := None;
              Part001.pay_message := Some "ECONNREFUSED" |}, w')
    ∧ length (sent w') = 1%nat.
Proof.
  intros env.
  destruct (@initiatePhonePePayment_outcome Demo.platform env Demo.world
              (placed_order (H := Demo.platform) Demo.env Demo.world
                 (Demo.payload "paperback" "prepaid" None) paperback prepaid)
              "MERCHANT" "salt" "1" "https://shop.example"
              eq_refl eq_refl eq_refl eq_refl)
    as (resp & w' & req & Hrun & Hsent & _ & _ & Hrej & _).
  exists w'. rewrite Hrun, (Hrej "ECONNREFUSED" eq_refl), Hsent. split; reflexivity.
Defined.

(** X12: once merchant id, secret and key index are configured,
    checkPhonePeStatus never throws, sends exactly one request and touches
    no store: the gateway's answer is returned as it came, and a rejected
    fetch is logged and returned as a failure object with the error's
    message. *)
Theorem checkPhonePeStatus_outcome `{Platform} (env : Env) (w : World) (txn : string)
    (merchantId saltKey saltIndex : string) :
  configured (PHONEPE_MERCHANT_ID env) = Some merchantId →
  configured (PHONEPE_SALT_KEY env) = Some saltKey →
  configured (PHONEPE_SALT_INDEX env) = Some saltIndex →
  ∃ res w' req,
    Part001.checkPhonePeStatus txn env w = (inr res, w')
    ∧ sent w' = sent w ++ [req]
    ∧ match gateway env req with
      | FetchJson j => res = Part001.StatusData j ∧ logs w' = logs w
      | FetchRejects msg =>
          res = Part001.StatusFailed msg
          ∧ logs w' = logs w ++ [(error, "checkPhonePeStatus failed")]
      end
    ∧ orders w' = orders w ∧ pendingOrders w' = pendingOrders w
    ∧ stock w' = stock w ∧ discounts w' = discounts w ∧ reviews w' = reviews w.
Proof.
  intros Hmid Hkey Hidx.
  unfold Part001.checkPhonePeStatus. run_M. rewrite Hmid, Hkey, Hidx. run_M.
  match goal with |- context [gateway env ?q] => set (q0 := q) end.
  destruct (gateway env q0) as [msg | j] eqn:Hq; run_M;
    eexists _, _, q0; (split; [reflexivity |]);
    cbn [sent with_sent with_logs logs orders pendingOrders stock discounts reviews];
    rewrite Hq; by split_and!.
Qed.

Lemma checkPhonePeStatus_outcome_witness :
  ∃ w',
    @Part001.checkPhonePeStatus Demo.platform "T1" Demo.env Demo.world
    = (inr (Part001.StatusData Demo.approve), w')
    ∧ logs w' = logs Demo.world.
Proof.
  destruct (@checkPhonePeStatus_outcome Demo.platform Demo.env Demo.world "T1"
              "MERCHANT" "salt" "1" eq_refl eq_refl eq_refl)
    as (res & w' & req & Hrun & _ & Hmatch & _).
  simpl in Hmatch. destruct Hmatch as [-> Hlogs].
  exists w'. split; assumption.
Defined.

(** ** Reviews *)

(** The review part_001 stores for an order. *)
Lemma part001_submitReview_run `{Platform} (env : Env) (w : World) (d : ReviewInput)
    (o : Order) :
  1 ≤ input_rating d ≤ 5 →
  stores_up env →
  orders w !! (input_userId d, input_orderId d) = Some o →
  Part001.submitReview d env w
  = (inr {| success := true; message := "Review submitted successfully.";
            orderId := None; redirectUrl := None |},
     with_revalidated (λ l, l ++ ["/orders"])
       (with_revalidated (λ l, l ++ ["/"])
          (with_orders (insert (input_userId d, input_orderId d)
                          (set_status delivered (Some true) o))
             (with_reviews
                (λ l, l ++ [{| review_orderId := input_orderId d;
                               review_userId := input_userId d;
                               rating := input_rating d;
                               reviewText := input_reviewText d;
                               userName := name (data o) |}]) w)))).
Proof.
  intros [Hlo%Z.leb_le Hhi%Z.leb_le] Hup Hsome.
  unfold Part001.submitReview. run_M. rewrite Hlo, Hhi. run_M.
  rewrite !Hup. run_M. rewrite Hsome. run_M. rewrite !Hup. run_M.
  rewrite Hsome. reflexivity.
Qed.



(** X14: submitReview of part_001 does not look at hasReview: submitting the
    same review twice succeeds twice and leaves two identical review records,
    the order staying delivered and reviewed. *)
Theorem submitReview_twice_stores_two_reviews `{Platform} (env : Env) (w : World)
    (d : ReviewInput) (o : Order) :
  1 ≤ input_rating d ≤ 5 →
  stores_up env →
  orders w !! (input_userId d, input_orderId d) = Some o →
  let first := Part001.submitReview d env w in
  let second := Part001.submitReview d env (snd first) in
  let review := {| review_orderId := input_orderId d;
                   review_userId := input_userId d;
                   rating := input_rating d;
                   reviewText := input_reviewText d;
                   userName := name (data o) |} in
  succeeded (fst first) = true
  ∧ hasReview <$> orders (snd first) !! (input_userId d, input_orderId d) = Some true
  ∧ succeeded (fst second) = true
  ∧ reviews (snd second) = reviews w ++ [review; review]
  ∧ orders (snd second) = orders (snd first).
Proof.
  intros Hrating Hup Hsome first second review. subst first second review.
  rewrite (part001_submitReview_run env w d o Hrating Hup Hsome).
  cbn [fst snd succeeded success].
  erewrite (part001_submitReview_run env _ d (set_status delivered (Some true) o)
              Hrating Hup).
  2: { cbn [orders with_orders with_revalidated with_reviews]. apply lookup_insert_eq. }
  cbn [fst snd succeeded success orders reviews with_orders with_revalidated
       with_reviews]. split_and!; try reflexivity.
  - by rewrite lookup_insert_eq.
  - by rewrite <- app_assoc.
  - by rewrite insert_insert_eq.
Qed.

Lemma submitReview_twice_stores_two_reviews_witness :
  let d := {| input_orderId := "order-7"; input_userId := "user-1";
              input_rating := 5; input_reviewText := Some "Moving." |} in
  length (reviews (snd (@Part001.submitReview Demo.platform d Demo.env
                          (snd (@Part001.submitReview Demo.platform d Demo.env
                                  reviewed_world))))) = 2%nat.
Proof.
  intros d.
  destruct (@submitReview_twice_stores_two_reviews Demo.platform Demo.env reviewed_world d
              {| id := "order-7";
                 data := LibActions.order_record (Demo.input "paperback") paperback 500 cod;
                 status := new; createdAt := 1690000000000; hasReview := false |})
    as (_ & _ & _ & Hreviews & _).
  - simpl. lia.
  - intros op. reflexivity.
  - reflexivity.
  - rewrite Hreviews. reflexivity.
Defined.

(** ** Status changes *)

(** X15: with the order store up, a status change of a located order touches
    that order alone: every other order, and stock, ledger, reviews, pending
    orders and requests stay as they were.  changeOrderStatus invalidates
    /admin and /orders, changeOrderStatusAction invalidates nothing; and of
    two changes in a row the second wins, as if the first had not been
    made. *)
Theorem status_change_is_local_and_last_wins (env : Env) (w : World)
    (uid oid : string) (st1 st2 : OrderStatus) (o : Order) :
  outage env op_updateOrderStatus = None →
  orders w !! (uid, oid) = Some o →
  let w1 := snd (LibActions.changeOrderStatus uid oid st1 env w) in
  let w2 := snd (LibActions.changeOrderStatus uid oid st2 env w1) in
  (∀ k, k ≠ (uid, oid) → orders w1 !! k = orders w !! k)
  ∧ stock w1 = stock w ∧ discounts w1 = discounts w ∧ reviews w1 = reviews w
  ∧ pendingOrders w1 = pendingOrders w ∧ sent w1 = sent w
  ∧ revalidated w1 = revalidated w ++ ["/admin"; "/orders"]
  ∧ revalidated (snd (Part001.changeOrderStatusAction uid oid st1 env w)) = revalidated w
  ∧ orders (snd (Part001.changeOrderStatusAction uid oid st1 env w)) = orders w1
  ∧ orders w2 = orders (snd (LibActions.changeOrderStatus uid oid st2 env w)).
Proof.
  intros Hup Hsome w1 w2. subst w2 w1.
  unfold LibActions.changeOrderStatus, Part001.changeOrderStatusAction.
  run_M. rewrite !Hup. run_M. rewrite Hsome. run_M. rewrite lookup_insert_eq. run_M.
  split_and!; try reflexivity.
  - intros k Hk. by rewrite lookup_insert_ne.
  - by rewrite <- app_assoc.
  - by rewrite insert_insert_eq.
Qed.

Lemma status_change_is_local_and_last_wins_witness :
  status <$> orders (snd (LibActions.changeOrderStatus "user-1" "order-9" new Demo.env
                            (snd (LibActions.changeOrderStatus "user-1" "order-9" dispatched
                                    Demo.env cancelled_world))))
             !! ("user-1", "order-9") = Some new.
Proof.
  destruct (status_change_is_local_and_last_wins Demo.env cancelled_world
              "user-1" "order-9" dispatched new
              {| id := "order-9";
                 data := LibActions.order_record (Demo.input "paperback") paperback 500 cod;
                 status := cancelled; createdAt := 1690000000000; hasReview := false |}
              eq_refl eq_refl) as (_ & _ & _ & _ & _ & _ & _ & _ & _ & Hlast).
  rewrite Hlast. reflexivity.
Defined.

(** ** Discount codes *)



(** ** The admin dashboard *)

(** X17: the four tabs of the order table partition the loaded orders: put
    together they are a rearrangement of the list, so every order shows up in
    exactly one tab, the tab of its status, and the tab sizes add up to the
    number of orders. *)
Theorem categorizedOrders_partition (orders : list Order) :
  let tabs := AdminDashboard.categorizedOrders orders in
  AdminDashboard.tab_new tabs ++ AdminDashboard.tab_dispatched tabs
    ++ AdminDashboard.tab_delivered tabs ++ AdminDashboard.tab_cancelled tabs
  ≡ₚ orders
  ∧ (length (AdminDashboard.tab_new tabs) + length (AdminDashboard.tab_dispatched tabs)
     + length (AdminDashboard.tab_delivered tabs)
     + length (AdminDashboard.tab_cancelled tabs) = length orders)%nat
  ∧ (∀ o, o ∈ AdminDashboard.tab_new tabs → status o = new)
  ∧ (∀ o, o ∈ AdminDashboard.tab_dispatched tabs → status o = dispatched)
  ∧ (∀ o, o ∈ AdminDashboard.tab_delivered tabs → status o = delivered)
  ∧ (∀ o, o ∈ AdminDashboard.tab_cancelled tabs → status o = cancelled).
Proof.
  intros tabs. subst tabs. unfold AdminDashboard.categorizedOrders.
  cbn [AdminDashboard.tab_new AdminDashboard.tab_dispatched
       AdminDashboard.tab_delivered AdminDashboard.tab_cancelled].
  assert (Hperm : filter (λ o, status o = new) orders
                  ++ filter (λ o, status o = dispatched) orders
                  ++ filter (λ o, status o = delivered) orders
                  ++ filter (λ o, status o = cancelled) orders ≡ₚ orders).
  { induction orders as [| o l IH]; [done |].
    rewrite !filter_cons. destruct (status o); simpl.
    - by rewrite IH.
    - rewrite <- Permutation_middle. by rewrite IH.
    - rewrite app_assoc, <- Permutation_middle, <- app_assoc. by rewrite IH.
    - rewrite !app_assoc, <- Permutation_middle, <- !app_assoc. by rewrite IH. }
  split_and!.
  - exact Hperm.
  - apply Permutation_length in Hperm. rewrite !length_app in Hperm. lia.
  - by intros o [? _]%list_elem_of_filter.
  - by intros o [? _]%list_elem_of_filter.
  - by intros o [? _]%list_elem_of_filter.
  - by intros o [? _]%list_elem_of_filter.
Qed.

(** X18: editing the stock form never produces a negative quantity, whatever
    parseInt makes of the typed text: a value that is not a number or is
    negative leaves the form as it was, an accepted value replaces the
    quantity of the edited variant only, and a form that starts non-negative
    stays so through any sequence of edits; while the stock is not loaded,
    edits are ignored. *)
Theorem stock_form_stays_nonnegative (parseInt10 : string → option Z) (s : Stock) :
  (∀ v value,
     (parseInt10 value = None ∨ ∃ q, parseInt10 value = Some q ∧ q < 0) →
     AdminDashboard.handleStockChange parseInt10 (Some s) v value = Some s)
  ∧ (∀ v value q,
       parseInt10 value = Some q → 0 ≤ q → v ≠ ebook →
       ∃ s', AdminDashboard.handleStockChange parseInt10 (Some s) v value = Some s'
             ∧ stock_at s' v = q
             ∧ ∀ v', v' ≠ v → stock_at s' v' = stock_at s v')
  ∧ (∀ changes,
       stock_nonneg s →
       ∃ s', AdminDashboard.edits parseInt10 (Some s) changes = Some s'
             ∧ stock_nonneg s')
  ∧ (∀ changes, AdminDashboard.edits parseInt10 None changes = None).
Proof.
  split_and!.
  - intros v value [Hnan | (q & Hq & Hneg)]; unfold AdminDashboard.handleStockChange.
    + by rewrite Hnan.
    + rewrite Hq. by rewrite (proj2 (Z.leb_gt 0 q)).
  - intros v value q Hq Hpos Hv. unfold AdminDashboard.handleStockChange.
    rewrite Hq, (proj2 (Z.leb_le 0 q)) by done. eexists. split; [reflexivity |].
    destruct v; try done; split; try done; by intros [].
  - assert (Hstep : ∀ s0 v value,
               stock_nonneg s0 →
               ∃ s', AdminDashboard.handleStockChange parseInt10 (Some s0) v value = Some s'
                     ∧ stock_nonneg s').
    { intros s0 v value Hs. unfold AdminDashboard.handleStockChange.
      destruct (parseInt10 value) as [q |]; [| by exists s0].
      destruct (0 <=? q) eqn:Hq; [| by exists s0].
      apply Z.leb_le in Hq. eexists. split; [reflexivity |].
      destruct Hs as [? ?]. destruct v; unfold stock_nonneg; simpl; lia. }
    intros changes. revert s.
    induction changes as [| [v value] l IH]; intros s Hs; [by exists s |].
    unfold AdminDashboard.edits in *. cbn [foldl fst snd].
    destruct (Hstep s v value Hs) as (s' & -> & Hs'). by apply IH.
  - intros changes. unfold AdminDashboard.edits.
    induction changes as [| [v value] l IH]; [done | exact IH].
Qed.

(** A parser of the digits 0 to 9 and of "-1", enough for the example. *)
Lemma stock_form_stays_nonnegative_witness :
  let parse := λ s : string,
    if String.eqb s "7" then Some 7 else if String.eqb s "-1" then Some (-1) else None in
  AdminDashboard.edits parse (Some {| stock_paperback := 10; stock_hardcover := 10 |})
    [(paperback, "7"); (hardcover, "-1"); (hardcover, "abc")]
  = Some {| stock_paperback := 7; stock_hardcover := 10 |}
  ∧ ∃ s', AdminDashboard.edits parse (Some {| stock_paperback := 10; stock_hardcover := 10 |})
            [(paperback, "7"); (hardcover, "-1"); (hardcover, "abc")] = Some s'
          ∧ stock_nonneg s'.
Proof.
  intros parse. split; [reflexivity |].
  apply (stock_form_stays_nonnegative parse
           {| stock_paperback := 10; stock_hardcover := 10 |}).
  split; simpl; lia.
Defined.

(** ** The discount amount over a range of prices *)

Lemma discounts_in_range_spec (top orig pct : Z) :
  discounts_in_range top = true →
  0 ≤ orig ≤ top →
  0 ≤ pct ≤ 100 →
  discount_in_range orig pct = true.
Proof.
  unfold discounts_in_range. intros Hall Horig Hpct.
  rewrite forallb_forall in Hall.
  assert (Hin : In orig (seqZ 0 (top + 1))).
  { apply list_elem_of_In, elem_of_seqZ. lia. }
  specialize (Hall orig Hin). rewrite forallb_forall in Hall.
  apply Hall. apply list_elem_of_In, elem_of_seqZ. lia.
Qed.

Lemma discounts_in_range_1000 : discounts_in_range 1000 = true.
Proof. vm_compute. reflexivity. Qed.

(** X19: for every whole price from 0 to 1000 and every percentage from 0 to
    100, the discount part_001 computes lies between 0 and the price, so the
    charged price is never negative and never above the original; it is the
    exact rounding of price × percent / 100, or one less than that and then
    only when the exact product ends in .5. *)
Theorem discount_stays_within_price (orig pct : Z) :
  0 ≤ orig ≤ 1000 →
  0 ≤ pct ≤ 100 →
  let d := Part001.percent_off orig pct in
  0 ≤ d ≤ orig
  ∧ 0 ≤ orig - d ≤ orig
  ∧ (d = spec_round_percent orig pct
     ∨ (d = spec_round_percent orig pct - 1 ∧ (orig * pct) mod 100 = 50)).
Proof.
  intros Horig Hpct d.
  pose proof (discounts_in_range_spec 1000 orig pct discounts_in_range_1000 Horig Hpct)
    as Hall.
  unfold discount_in_range in Hall. fold d in Hall.
  apply andb_prop in Hall as [Hrange Hround].
  apply andb_prop in Hrange as [Hlo%Z.leb_le Hhi%Z.leb_le].
  apply orb_prop in Hround as [Heq%Z.eqb_eq | Htie].
  - split_and!; [lia | lia | lia | lia | by left].
  - apply andb_prop in Htie as [Heq%Z.eqb_eq Hmod%Z.eqb_eq].
    split_and!; [lia | lia | lia | lia | by right].
Qed.

Lemma discount_stays_within_price_witness :
  0 ≤ Part001.percent_off 650 35 ≤ 650
  ∧ Part001.percent_off 650 35 = spec_round_percent 650 35 - 1
  ∧ (650 * 35) mod 100 = 50.
Proof.
  destruct (discount_stays_within_price 650 35) as (Hd & _ & Hround).
  - lia.
  - lia.
  - split; [exact Hd |]. destruct Hround as [Heq | [Heq Hmod]].
    + vm_compute in Heq. discriminate.
    + split; assumption.
Defined.

(** ** What the actions of src/src/lib/actions.ts leave alone *)

(** X20: whatever the outcome, processPrepaidOrder writes no order and
    changes neither stock, ledger nor reviews: it only adds or removes the
    pending order and sends its request; and the COD placeOrder of the same
    file never touches pending orders, ledger or reviews and never contacts
    the gateway. *)
Theorem lib_actions_frame `{Platform} (env : Env) (w : World) :
  (∀ d, let w' := snd (LibActions.processPrepaidOrder d env w) in
        orders w' = orders w ∧ stock w' = stock w ∧ discounts w' = discounts w
        ∧ reviews w' = reviews w ∧ revalidated w' = revalidated w)
  ∧ (∀ d, let w' := snd (LibActions.placeOrder d env w) in
          pendingOrders w' = pendingOrders w ∧ discounts w' = discounts w
          ∧ reviews w' = reviews w ∧ sent w' = sent w).
Proof.
  split.
  - intros d w'. subst w'. unfold LibActions.processPrepaidOrder. crunch; done.
  - intros d w'. subst w'. unfold LibActions.placeOrder. crunch; done.
Qed.

(** X21: a rating outside 1..5 is refused by submitReview in both modules
    before any store is called: no review is stored and no order is changed,
    and the caller gets the validation error as the failure message. *)
Theorem out_of_range_rating_is_refused `{Platform} (env : Env) (w : World)
    (d : ReviewInput) :
  input_rating d < 1 ∨ 5 < input_rating d →
  let part := Part001.submitReview d env w in
  let lib := LibActions.submitReview d env w in
  fst part = inr (failed (JS.or_else (Some ZodError_message) "Failed to submit review."))
  ∧ fst lib = inr (failed (JS.or_else (Some ZodError_message) "Failed to submit review."))
  ∧ reviews (snd part) = reviews w ∧ orders (snd part) = orders w
  ∧ snd lib = w.
Proof.
  intros Hout part lib. subst part lib.
  assert (Hguard : (1 <=? input_rating d) && (input_rating d <=? 5) = false).
  { destruct Hout; [apply andb_false_intro1 | apply andb_false_intro2]; lia. }
  unfold Part001.submitReview, LibActions.submitReview. run_M.
  rewrite Hguard. run_M. by split_and!.
Qed.

Lemma out_of_range_rating_is_refused_witness :
  let d := {| input_orderId := "order-7"; input_userId := "user-1";
              input_rating := 6; input_reviewText := None |} in
  snd (@LibActions.submitReview Demo.platform d Demo.env reviewed_world) = reviewed_world
  ∧ succeeded (fst (@Part001.submitReview Demo.platform d Demo.env reviewed_world)) = false.
Proof.
  intros d.
  destruct (@out_of_range_rating_is_refused Demo.platform Demo.env reviewed_world d)
    as (Hpart & _ & _ & _ & Hlib).
  - right. simpl. lia.
  - split; [exact Hlib | by rewrite Hpart].
Defined.
